(** * Smart_Calculator: a shallow embedding of [calculator/calculator.py]

    The calculator reads lines, classifies each one (empty, number, variable,
    assignment, command, expression) and, for expressions, runs the pipeline
    [check_expr] -> [to_array] -> [to_postfix] -> [calculate_postfix].

    Conventions of the embedding.
    - A Python [str] is a [string]; one character of the embedding is one code
      point below 256 (the Latin-1 range), and the character classes below are
      the ones Python's [str.isalpha], [str.isdigit] and [str.split] use there.
    - A Python exception is the [Raise] outcome of [result]; [NotModelled]
      marks the few places where the behaviour of the interpreter is not
      embedded (floating-point power, [eval] of text that the calculator never
      builds).  No statement below is about a [NotModelled] outcome.
    - The limit that recent interpreters put on the number of digits of an
      integer converted to or from text is taken to be switched off. *)

From Stdlib Require Import ZArith Lia Bool Ascii DecimalString SpecFloat.
From stdpp Require Import base option list gmap strings.

(** ** Outcomes *)

Inductive exn : Type :=
  | KeyError | IndexError | ZeroDivisionError | SyntaxError | NameError
  | ValueError | OverflowError | TypeError | EOFError
  | CommandException | ExpressionError | IdentifierError | AssignmentError
  | UnknownVarError.

Inductive result (A : Type) : Type :=
  | Ok (a : A)
  | Raise (e : exn)
  | NotModelled.
Arguments Ok {A} a.
Arguments Raise {A} e.
Arguments NotModelled {A}.

#[global] Instance result_ret : MRet result := fun A a => Ok a.

#[global] Instance result_bind : MBind result := fun A B k r =>
  match r with
  | Ok a => k a
  | Raise e => Raise e
  | NotModelled => NotModelled
  end.

(** The text of an exception, as [print(e)] shows it, for the five classes
    of the program, which override [__str__]. *)
Definition exn_str (e : exn) : option string :=
  match e with
  | CommandException => Some "Unknown command"
  | ExpressionError => Some "Invalid expression"
  | IdentifierError => Some "Invalid identifier"
  | AssignmentError => Some "Invalid assignment"
  | UnknownVarError => Some "Unknown variable"
  | _ => None
  end.

(** ** Characters and the [str] methods the program calls *)

Module Py.

Definition code (c : ascii) : N := N_of_ascii c.

Definition between (lo hi : N) (c : ascii) : bool :=
  (lo <=? code c)%N && (code c <=? hi)%N.

Definition at_code (n : N) (c : ascii) : bool := (code c =? n)%N.

(** [c.isdigit()] for a code point below 256: the ten decimal digits and the
    superscripts two, three and one. *)
Definition char_isdigit (c : ascii) : bool :=
  between 48 57 c || at_code 178 c || at_code 179 c || at_code 185 c.

(** A decimal digit proper, which is what an integer literal is made of. *)
Definition char_isdecimal (c : ascii) : bool := between 48 57 c.

(** [c.isalpha()] for a code point below 256. *)
Definition char_isalpha (c : ascii) : bool :=
  between 65 90 c || between 97 122 c
  || at_code 170 c || at_code 181 c || at_code 186 c
  || between 192 214 c || between 216 246 c || between 248 255 c.

(** The characters [str.split()] splits on. *)
Definition char_isspace (c : ascii) : bool :=
  between 9 13 c || between 28 32 c || at_code 133 c || at_code 160 c.

Definition char_eqb (a b : ascii) : bool := Ascii.eqb a b.

Fixpoint all (p : ascii -> bool) (s : string) : bool :=
  match s with
  | EmptyString => true
  | String c s' => p c && all p s'
  end.

Definition nonempty (s : string) : bool :=
  match s with EmptyString => false | String _ _ => true end.

Definition isdigit (s : string) : bool := nonempty s && all char_isdigit s.
Definition isalpha (s : string) : bool := nonempty s && all char_isalpha s.

(** [s.lstrip(c)] for a single character [c]. *)
Fixpoint lstrip (c : ascii) (s : string) : string :=
  match s with
  | EmptyString => EmptyString
  | String d s' => if char_eqb d c then lstrip c s' else s
  end.

(** [s.replace(c, '')]. *)
Fixpoint remove (c : ascii) (s : string) : string :=
  match s with
  | EmptyString => EmptyString
  | String d s' => if char_eqb d c then remove c s' else String d (remove c s')
  end.

(** [s.replace(c, d)] for single characters. *)
Fixpoint replace (c d : ascii) (s : string) : string :=
  match s with
  | EmptyString => EmptyString
  | String e s' => String (if char_eqb e c then d else e) (replace c d s')
  end.

(** [s.count(c)]. *)
Fixpoint count (c : ascii) (s : string) : nat :=
  match s with
  | EmptyString => 0
  | String d s' => (if char_eqb d c then 1 else 0) + count c s'
  end.

(** [c in s]. *)
Fixpoint contains (c : ascii) (s : string) : bool :=
  match s with
  | EmptyString => false
  | String d s' => char_eqb d c || contains c s'
  end.

(** The longest prefix of [s] whose characters satisfy [p], and the rest. *)
Fixpoint span (p : ascii -> bool) (s : string) : string * string :=
  match s with
  | EmptyString => (EmptyString, EmptyString)
  | String c s' =>
      if p c then let '(run, rest) := span p s' in (String c run, rest)
      else (EmptyString, s)
  end.

(** [s.split()]: the maximal runs of characters that are not white space.
    [word] is the run being read, in reverse. *)
Fixpoint split_from (word : list ascii) (s : string) : list string :=
  let flush := match word with
               | [] => []
               | _ => [String.string_of_list_ascii (rev word)]
               end in
  match s with
  | EmptyString => flush
  | String c s' =>
      if char_isspace c then flush ++ split_from [] s'
      else split_from (c :: word) s'
  end.

Definition split (s : string) : list string := split_from [] s.

End Py.

(** ** The classifiers of a line *)

Definition is_empty (inp : string) : bool := negb (Py.nonempty inp).

Definition is_command (inp : string) : bool :=
  match inp with
  | String c _ => Py.char_eqb "/"%char c
  | EmptyString => false   (* [inp[0]] is never taken of an empty line *)
  end.

Definition is_variable (inp : string) : bool :=
  Py.isalpha (Py.remove " "%char inp).

Definition is_assignment (inp : string) : bool := Py.contains "="%char inp.

(** [inp.lstrip('-').isdigit()], the test for a number used throughout. *)
Definition is_number (s : string) : bool := Py.isdigit (Py.lstrip "-"%char s).

(** ** [precedence] and [to_postfix] *)

Definition precedence : gmap string nat :=
  list_to_map [("(", 4); (")", 4); ("^", 3); ("*", 2); ("/", 2);
               ("+", 1); ("-", 1)].

(** The operator stack is a list whose head is the top ([stack[-1]]);
    [postfix] grows at its end. *)
Definition conv_state : Type := list string * list string.

(** [while stack[-1] != '(': postfix.append(stack.pop())], then [stack.pop()]. *)
Fixpoint pop_to_paren (stack postfix : list string) : result conv_state :=
  match stack with
  | [] => Raise IndexError
  | top :: stack' =>
      if String.eqb top "(" then Ok (stack', postfix)
      else pop_to_paren stack' (postfix ++ [top])
  end.

(** [while len(stack) and precedence[el] <= precedence[stack[-1]]:
       postfix.append(stack.pop())]. *)
Fixpoint pop_while (el : string) (stack postfix : list string)
  : result conv_state :=
  match stack with
  | [] => Ok ([], postfix)
  | top :: stack' =>
      match precedence !! el, precedence !! top with
      | Some pe, Some pt =>
          if pe <=? pt then pop_while el stack' (postfix ++ [top])
          else Ok (stack, postfix)
      | _, _ => Raise KeyError
      end
  end.

(** One turn of the [for el in infix] loop. *)
Definition to_postfix_step (st : conv_state) (el : string)
  : result conv_state :=
  let '(stack, postfix) := st in
  if Py.isdigit el || Py.isalpha el then Ok (stack, postfix ++ [el])
  else if String.eqb el "(" then Ok (el :: stack, postfix)
  else if String.eqb el ")" then pop_to_paren stack postfix
  else
    match stack with
    | [] => Ok ([el], postfix)
    | top :: _ =>
        if String.eqb top "(" then Ok (el :: stack, postfix)
        else
          match precedence !! el, precedence !! top with
          | Some pe, Some pt =>
              if pt <? pe then Ok (el :: stack, postfix)
              else
                '(stack', postfix') ← pop_while el stack postfix;
                Ok (el :: stack', postfix')
          | _, _ => Raise KeyError
          end
    end.

Fixpoint to_postfix_loop (st : conv_state) (infix : list string)
  : result conv_state :=
  match infix with
  | [] => Ok st
  | el :: infix' =>
      st' ← to_postfix_step st el; to_postfix_loop st' infix'
  end.

Definition to_postfix (infix : list string) : result (list string) :=
  '(stack, postfix) ← to_postfix_loop ([], []) infix;
  Ok (postfix ++ stack).

(** ** [check_expr] *)

Definition is_muldiv (c : ascii) : bool :=
  Py.char_eqb c "*"%char || Py.char_eqb c "/"%char || Py.char_eqb c "^"%char.

(** [re.search("[*/^]{2,}", expr) is not None]. *)
Fixpoint has_repeated_op (expr : string) : bool :=
  match expr with
  | EmptyString => false
  | String c rest =>
      (is_muldiv c
       && match rest with
          | String d _ => is_muldiv d
          | EmptyString => false
          end)
      || has_repeated_op rest
  end.

Definition check_expr (expr : string) : result unit :=
  if negb (Py.count "("%char expr =? Py.count ")"%char expr)
  then Raise ExpressionError
  else if has_repeated_op expr then Raise ExpressionError
  else Ok tt.

(** ** [to_array] *)

(** [expr[i].isalpha() or expr[i].lstrip('-').isdigit()] for the single
    character [expr[i]]: stripping leaves a lone minus sign empty, which is
    not a digit, and leaves any other character as it is. *)
Definition is_operand_char (c : ascii) : bool :=
  Py.char_isalpha c || Py.isdigit (Py.lstrip "-"%char (String c EmptyString)).

(** The character class of [re.match("[+|-]+", ...)]: plus, bar and minus. *)
Definition is_sign_char (c : ascii) : bool :=
  Py.char_eqb c "+"%char || Py.char_eqb c "|"%char || Py.char_eqb c "-"%char.

Definition fold_signs (operator : string) : string :=
  if Nat.odd (Py.count "-"%char operator) then "-" else "+".

(** The [while i < len(expr)] loop; [expr] is the text from index [i] on, and
    every turn moves [i] forward, so [length expr] turns are enough. *)
Fixpoint to_array_loop (fuel : nat) (expr : string) : list string :=
  match fuel with
  | O => []
  | S fuel' =>
      match expr with
      | EmptyString => []
      | String c rest =>
          if is_operand_char c then
            let '(run, rest') := Py.span is_operand_char rest in
            String c run :: to_array_loop fuel' rest'
          else if Py.char_eqb c "("%char || Py.char_eqb c ")"%char
                  || Py.char_eqb c "*"%char || Py.char_eqb c "/"%char then
            String c EmptyString :: to_array_loop fuel' rest
          else if Py.char_eqb c "^"%char then
            "**" :: to_array_loop fuel' rest
          else if is_sign_char c then
            let '(run, rest') := Py.span is_sign_char rest in
            fold_signs (String c run) :: to_array_loop fuel' rest'
          else to_array_loop fuel' rest
      end
  end.

Definition to_array (expr : string) : list string :=
  to_array_loop (String.length expr) expr.

(** ** Values and [eval]

    The value stack of [calculate_postfix] holds three kinds of objects: the
    text of a token or of a variable ([str]), and the [int] and [float]
    results of [eval].  A [float] is an IEEE 754 binary64 number. *)

Inductive pyobj : Type :=
  | PStr (s : string)
  | PInt (z : Z)
  | PFloat (f : spec_float).

Module Num.

Definition prec : Z := 53.
Definition emax : Z := 1024.

Definition is_finite (f : spec_float) : bool :=
  match f with
  | S754_zero _ | S754_finite _ _ _ => true
  | _ => false
  end.

Definition is_zero (f : spec_float) : bool :=
  match f with S754_zero _ => true | _ => false end.

(** An integer as an unrounded binary number. *)
Definition exact (z : Z) : spec_float :=
  match z with
  | Z0 => S754_zero false
  | Zpos m => S754_finite false m 0
  | Zneg m => S754_finite true m 0
  end.

(** [float(z)]: the nearest binary64 number, or [OverflowError]. *)
Definition float_of_int (z : Z) : result spec_float :=
  let f := binary_normalize prec emax z 0 false in
  if is_finite f then Ok f else Raise OverflowError.

Definition as_float (v : pyobj) : result spec_float :=
  match v with
  | PInt z => float_of_int z
  | PFloat f => Ok f
  | PStr _ => NotModelled
  end.

(** Unary minus. *)
Definition neg (v : pyobj) : pyobj :=
  match v with
  | PInt z => PInt (- z)
  | PFloat f => PFloat (SFopp f)
  | PStr s => PStr s
  end.

Definition float_op (op : spec_float -> spec_float -> spec_float)
    (a b : pyobj) : result pyobj :=
  x ← as_float a; y ← as_float b; Ok (PFloat (op x y)).

Definition add (a b : pyobj) : result pyobj :=
  match a, b with
  | PInt x, PInt y => Ok (PInt (x + y))
  | _, _ => float_op (SFadd prec emax) a b
  end.

Definition sub (a b : pyobj) : result pyobj :=
  match a, b with
  | PInt x, PInt y => Ok (PInt (x - y))
  | _, _ => float_op (SFsub prec emax) a b
  end.

Definition mul (a b : pyobj) : result pyobj :=
  match a, b with
  | PInt x, PInt y => Ok (PInt (x * y))
  | _, _ => float_op (SFmul prec emax) a b
  end.

(** True division.  Of two integers it is the correctly rounded quotient. *)
Definition truediv (a b : pyobj) : result pyobj :=
  match a, b with
  | PInt x, PInt y =>
      if (y =? 0)%Z then Raise ZeroDivisionError
      else
        let q := SFdiv prec emax (exact x) (exact y) in
        if is_finite q then Ok (PFloat q) else Raise OverflowError
  | _, _ =>
      x ← as_float a; y ← as_float b;
      if is_zero y then Raise ZeroDivisionError
      else Ok (PFloat (SFdiv prec emax x y))
  end.

(** Power.  Only the integer case with an exponent that is not negative is
    embedded; every other case is computed in floating point. *)
Definition pow (a b : pyobj) : result pyobj :=
  match a, b with
  | PInt x, PInt y => if (0 <=? y)%Z then Ok (PInt (x ^ y)) else NotModelled
  | _, _ => NotModelled
  end.

(** [int(f)] for a float: truncation towards zero. *)
Definition trunc (f : spec_float) : result Z :=
  match f with
  | S754_nan => Raise ValueError
  | S754_infinity _ => Raise OverflowError
  | S754_zero _ => Ok 0%Z
  | S754_finite s m e =>
      let mag := if (0 <=? e)%Z then (Z.pos m * 2 ^ e)%Z
                 else Z.shiftr (Z.pos m) (- e) in
      Ok (if s then (- mag)%Z else mag)
  end.

End Num.

(** The text of an operand, as Python's parser reads it inside
    [f"{a} {el} {b}"]: some minus signs, then a number or a name. *)
Inductive atom : Type :=
  | ANum (v : pyobj)     (* a literal that is not negative *)
  | AName.               (* [inf] and [nan], which are names and not bound *)

Record operand : Type := Operand { minus : nat; body : atom }.

Definition digit_value (c : ascii) : Z := Z.of_N (Py.code c) - 48.

Fixpoint decimal_value (acc : Z) (s : string) : Z :=
  match s with
  | EmptyString => acc
  | String c s' => decimal_value (10 * acc + digit_value c) s'
  end.

(** A decimal integer literal starts with a digit that is not zero, or is
    made of zeros only. *)
Definition decimal_literal (s : string) : bool :=
  Py.nonempty s && Py.all Py.char_isdecimal s
  && match s with
     | String c _ =>
         negb (Py.char_eqb c "0"%char) || Py.all (Py.char_eqb "0"%char) s
     | EmptyString => false
     end.

(** Reading an operand.  A [str] on the stack is a token or the value of a
    variable: minus signs followed by digits, in every run of the calculator
    (see [store_ok]).  An [int] or a finite [float] is printed as text that
    reads back as the same number. *)
Definition read_operand (a : pyobj) : result operand :=
  match a with
  | PStr s =>
      let digits := Py.lstrip "-"%char s in
      if Py.isdigit digits then
        if decimal_literal digits then
          Ok (Operand (String.length s - String.length digits)
                (ANum (PInt (decimal_value 0 digits))))
        else Raise SyntaxError
      else NotModelled
  | PInt z => Ok (Operand (if (z <? 0)%Z then 1 else 0) (ANum (PInt (Z.abs z))))
  | PFloat f =>
      match f with
      | S754_nan => Ok (Operand 0 AName)
      | S754_infinity s => Ok (Operand (if s then 1 else 0) AName)
      | S754_zero s => Ok (Operand (if s then 1 else 0)
                             (ANum (PFloat (S754_zero false))))
      | S754_finite s m e =>
          Ok (Operand (if s then 1 else 0)
                (ANum (PFloat (S754_finite false m e))))
      end
  end.

Definition atom_value (t : atom) : result pyobj :=
  match t with
  | ANum v => Ok v
  | AName => Raise NameError
  end.

Definition with_signs (k : nat) (v : pyobj) : pyobj :=
  if Nat.odd k then Num.neg v else v.

Definition operand_value (o : operand) : result pyobj :=
  v ← atom_value (body o); Ok (with_signs (minus o) v).

(** The operator tokens that [eval] understands here. *)
Definition is_operator (el : string) : bool :=
  String.eqb el "+" || String.eqb el "-" || String.eqb el "*"
  || String.eqb el "/" || String.eqb el "**".

(** What [to_array] can put between two operands besides an operator: a
    parenthesis, or a run of letters and digits that is neither a name nor
    a number.  Python reads such a run as one name, or as a number first,
    and a number followed by either does not parse. *)
Definition is_alnum (c : ascii) : bool :=
  Py.char_isalpha c || Py.char_isdigit c.

Definition is_stray_token (el : string) : bool :=
  String.eqb el "(" || String.eqb el ")"
  || (Py.nonempty el && Py.all is_alnum el && negb (Py.isalpha el)).

(** [eval(f"{a} {el} {b}")].  A minus sign binds tighter than [+ - * /] and
    looser than [**]: [-2 ** 2] is [-(2 ** 2)]. *)
Definition py_eval (a : pyobj) (el : string) (b : pyobj) : result pyobj :=
  oa ← read_operand a;
  ob ← read_operand b;
  if is_operator el then
    if String.eqb el "**" then
      base ← atom_value (body oa);
      y ← operand_value ob;
      r ← Num.pow base y;
      Ok (with_signs (minus oa) r)
    else
      x ← operand_value oa;
      y ← operand_value ob;
      if String.eqb el "+" then Num.add x y
      else if String.eqb el "-" then Num.sub x y
      else if String.eqb el "*" then Num.mul x y
      else Num.truediv x y
  else if is_stray_token el then Raise SyntaxError
  else NotModelled.

(** [int(x)] for the object left on the stack. *)
Definition py_int (v : pyobj) : result Z :=
  match v with
  | PStr s =>
      let digits := Py.lstrip "-"%char s in
      if Py.isdigit digits then
        if Py.all Py.char_isdecimal digits then
          match String.length s - String.length digits with
          | 0 => Ok (decimal_value 0 digits)
          | 1 => Ok (- decimal_value 0 digits)%Z
          | _ => Raise ValueError
          end
        else Raise ValueError
      else NotModelled
  | PInt z => Ok z
  | PFloat f => Num.trunc f
  end.

(** [str(z)], the text [print] shows for an integer. *)
Definition str_of_int (z : Z) : string := NilZero.string_of_int (Z.to_int z).

(** ** The class [Calculator] *)

Record Calculator : Type := MkCalculator {
  run : bool;
  variables : gmap string string
}.

(** [Calculator()] *)
Definition init : Calculator := MkCalculator true ∅.

Definition assign_valid (vars : gmap string string) (cmd_arr : list string)
  : result unit :=
  match cmd_arr with
  | [identifier; value] =>
      if negb (Py.isalpha identifier) then Raise IdentifierError
      else if negb (is_number value) then
        if negb (Py.isalpha value) then Raise AssignmentError
        else if negb (bool_decide (is_Some (vars !! value)))
             then Raise UnknownVarError
        else Ok tt
      else Ok tt
  | _ => Raise AssignmentError
  end.

Definition assign (vars : gmap string string) (identifier value : string)
  : result (gmap string string) :=
  if is_number value then Ok (<[identifier := value]> vars)
  else
    match vars !! value with
    | Some v => Ok (<[identifier := v]> vars)
    | None => Raise KeyError
    end.

Definition newline : string := String "010"%char EmptyString.

Definition help_text : string :=
  "A calculator with variables! Available operations:" +:+ newline +:+
  "-typing any variable to see the value," +:+ newline +:+
  "-entering an operation with (), +, -, /, *," +:+ newline +:+
  "-using both numbers and available variables" +:+ newline.

(** A method returns the new state of the object and what it printed, one
    string for each call of [print]. *)
Definition effect : Type := Calculator * list string.

Definition execute_cmd (c : Calculator) (cmd : string) : result effect :=
  if String.eqb cmd "/exit" then Ok (MkCalculator false (variables c), ["Bye!"])
  else if String.eqb cmd "/help" then Ok (c, [help_text])
  else Raise CommandException.

Definition calculate_step (vars : gmap string string) (stack : list pyobj)
    (el : string) : result (list pyobj) :=
  if is_number el then Ok (PStr el :: stack)
  else if Py.isalpha el then
    match vars !! el with
    | Some v => Ok (PStr v :: stack)
    | None => Raise KeyError
    end
  else
    match stack with
    | b :: a :: stack' => r ← py_eval a el b; Ok (r :: stack')
    | _ => Raise IndexError
    end.

Fixpoint calculate_loop (vars : gmap string string) (stack : list pyobj)
    (postfix : list string) : result (list pyobj) :=
  match postfix with
  | [] => Ok stack
  | el :: postfix' =>
      stack' ← calculate_step vars stack el;
      calculate_loop vars stack' postfix'
  end.

Definition calculate_postfix (vars : gmap string string)
    (postfix : list string) : result Z :=
  stack ← calculate_loop vars [] postfix;
  match stack with
  | top :: _ => py_int top
  | [] => Raise IndexError
  end.

(** [print(e)] in a handler. *)
Definition print_exn (c : Calculator) (e : exn) : result effect :=
  match exn_str e with
  | Some msg => Ok (c, [msg])
  | None => NotModelled
  end.

(** The body of the [while] loop of [run_calc] for the line [inp]: the new
    state and the printed lines, or the exception that leaves the loop. *)
Definition process_line (c : Calculator) (inp : string) : result effect :=
  if is_empty inp then Ok (c, [])
  else if is_number inp then Ok (c, [inp])
  else if is_variable inp then
    match variables c !! Py.remove " "%char inp with
    | Some v => Ok (c, [v])
    | None => print_exn c UnknownVarError
    end
  else if is_assignment inp then
    let arr := Py.split (Py.replace "="%char " "%char inp) in
    let attempt :=
      _ ← assign_valid (variables c) arr;
      match arr with
      | [identifier; value] => assign (variables c) identifier value
      | _ => Raise TypeError
      end in
    match attempt with
    | Ok vars' => Ok (MkCalculator (run c) vars', [])
    | Raise e => print_exn c e
    | NotModelled => NotModelled
    end
  else if is_command inp then
    match execute_cmd c inp with
    | Raise CommandException => print_exn c CommandException
    | r => r
    end
  else
    match check_expr inp with
    | Raise ExpressionError => print_exn c ExpressionError
    | Raise e => Raise e
    | NotModelled => NotModelled
    | Ok _ =>
        postfix ← to_postfix (to_array inp);
        v ← calculate_postfix (variables c) postfix;
        Ok (c, [str_of_int v])
    end.

(** How a session ends. *)
Inductive ending : Type :=
  | Finished               (* [self.run] became false: [run_calc] returns *)
  | Uncaught (e : exn)     (* an exception leaves [run_calc] *)
  | Unknown.               (* the session left the embedding *)

(** [run_calc] on the lines that [input()] will return, in order; at the end
    of the input [input()] raises [EOFError]. *)
Fixpoint run_calc (c : Calculator) (lines : list string)
  : list string * ending :=
  if negb (run c) then ([], Finished)
  else
    match lines with
    | [] => ([], Uncaught EOFError)
    | inp :: lines' =>
        match process_line c inp with
        | Ok (c', out) =>
            let '(out', e) := run_calc c' lines' in (out ++ out', e)
        | Raise e => ([], Uncaught e)
        | NotModelled => ([], Unknown)
        end
    end.

Definition session (lines : list string) : list string * ending :=
  run_calc init lines.

(** ** The reference evaluation of the specification

    Modelled from the specification's words, to compare the program with:
    [+] and [-] bind loosest, [*] and [/] next, [^] tightest, operators of
    equal precedence associate to the left, parentheses group.  The grammar
    has one level for each precedence, so the tokens of an expression, read
    in order, determine it. *)

Module Reference.

Inductive sum : Type :=
  | Term (t : term)
  | Add (s : sum) (t : term)
  | Sub (s : sum) (t : term)
with term : Type :=
  | Power (p : power)
  | Mul (t : term) (p : power)
  | Div (t : term) (p : power)
with power : Type :=
  | Primary (a : primary)
  | Pow (p : power) (a : primary)
with primary : Type :=
  | Lit (n : N)
  | Ref (x : string)
  | Group (s : sum).

(** The line the user types, without blanks. *)
Fixpoint text_sum (s : sum) : string :=
  match s with
  | Term t => text_term t
  | Add s t => text_sum s +:+ "+" +:+ text_term t
  | Sub s t => text_sum s +:+ "-" +:+ text_term t
  end
with text_term (t : term) : string :=
  match t with
  | Power p => text_power p
  | Mul t p => text_term t +:+ "*" +:+ text_power p
  | Div t p => text_term t +:+ "/" +:+ text_power p
  end
with text_power (p : power) : string :=
  match p with
  | Primary a => text_primary a
  | Pow p a => text_power p +:+ "^" +:+ text_primary a
  end
with text_primary (a : primary) : string :=
  match a with
  | Lit n => str_of_int (Z.of_N n)
  | Ref x => x
  | Group s => "(" +:+ text_sum s +:+ ")"
  end.

(** The value, with the integer each variable stands for; division of
    integers truncates, and a division by zero has no value. *)
Fixpoint value_sum (env : gmap string Z) (s : sum) : option Z :=
  match s with
  | Term t => value_term env t
  | Add s t => x ← value_sum env s; y ← value_term env t; Some (x + y)%Z
  | Sub s t => x ← value_sum env s; y ← value_term env t; Some (x - y)%Z
  end
with value_term (env : gmap string Z) (t : term) : option Z :=
  match t with
  | Power p => value_power env p
  | Mul t p => x ← value_term env t; y ← value_power env p; Some (x * y)%Z
  | Div t p =>
      x ← value_term env t; y ← value_power env p;
      if (y =? 0)%Z then None else Some (x ÷ y)%Z
  end
with value_power (env : gmap string Z) (p : power) : option Z :=
  match p with
  | Primary a => value_primary env a
  | Pow p a => x ← value_power env p; y ← value_primary env a; Some (x ^ y)%Z
  end
with value_primary (env : gmap string Z) (a : primary) : option Z :=
  match a with
  | Lit n => Some (Z.of_N n)
  | Ref x => env !! x
  | Group s => value_sum env s
  end.

(** The operation of an operator token on two integers, as the
    specification has it: the result is an integer. *)
Definition apply (el : string) (a b : Z) : option Z :=
  if String.eqb el "+" then Some (a + b)%Z
  else if String.eqb el "-" then Some (a - b)%Z
  else if String.eqb el "*" then Some (a * b)%Z
  else if String.eqb el "/" then if (b =? 0)%Z then None else Some (a ÷ b)%Z
  else if String.eqb el "**" then Some (a ^ b)%Z
  else None.

End Reference.

(** ** Expressions without parentheses

    Sums and differences of products of literals, as token sequences: the
    part of the grammar on which the pipeline is compared with the
    reference evaluation below. *)

Module Flat.

Inductive product : Type :=
  | Literal (d : string)
  | Times (t : product) (d : string).

Inductive chain : Type :=
  | Single (t : product)
  | Plus (s : chain) (t : product)
  | Minus (s : chain) (t : product).

(** Every literal is a decimal literal of Python. *)
Fixpoint wf_term (t : product) : bool :=
  match t with
  | Literal d => decimal_literal d
  | Times t d => wf_term t && decimal_literal d
  end.

Fixpoint wf (s : chain) : bool :=
  match s with
  | Single t => wf_term t
  | Plus s t | Minus s t => wf s && wf_term t
  end.

(** The tokens, in the order of the line. *)
Fixpoint tokens_term (t : product) : list string :=
  match t with
  | Literal d => [d]
  | Times t d => tokens_term t ++ ["*"; d]
  end.

Fixpoint tokens (s : chain) : list string :=
  match s with
  | Single t => tokens_term t
  | Plus s t => tokens s ++ "+" :: tokens_term t
  | Minus s t => tokens s ++ "-" :: tokens_term t
  end.

(** The same expression in the reference grammar. *)
Definition ref_lit (d : string) : Reference.primary :=
  Reference.Lit (Z.to_N (decimal_value 0 d)).

Fixpoint ref_term (t : product) : Reference.term :=
  match t with
  | Literal d => Reference.Power (Reference.Primary (ref_lit d))
  | Times t d => Reference.Mul (ref_term t) (Reference.Primary (ref_lit d))
  end.

Fixpoint ref_sum (s : chain) : Reference.sum :=
  match s with
  | Single t => Reference.Term (ref_term t)
  | Plus s t => Reference.Add (ref_sum s) (ref_term t)
  | Minus s t => Reference.Sub (ref_sum s) (ref_term t)
  end.

(** The value. *)
Fixpoint value_term (t : product) : Z :=
  match t with
  | Literal d => decimal_value 0 d
  | Times t d => (value_term t * decimal_value 0 d)%Z
  end.

Fixpoint value (s : chain) : Z :=
  match s with
  | Single t => value_term t
  | Plus s t => (value s + value_term t)%Z
  | Minus s t => (value s - value_term t)%Z
  end.

(** The postfix form. *)
Fixpoint post_term (t : product) : list string :=
  match t with
  | Literal d => [d]
  | Times t d => post_term t ++ [d; "*"]
  end.

Fixpoint post (s : chain) : list string :=
  match s with
  | Single t => post_term t
  | Plus s t => post s ++ post_term t ++ ["+"]
  | Minus s t => post s ++ post_term t ++ ["-"]
  end.

(** What [to_postfix] has written to the output, and what it still holds
    on the stack, when it has read the tokens of an expression. *)
Definition pend_term (t : product) : list string :=
  match t with
  | Literal _ => []
  | Times _ _ => ["*"]
  end.

Fixpoint emit_term (t : product) : list string :=
  match t with
  | Literal d => [d]
  | Times t d => emit_term t ++ pend_term t ++ [d]
  end.

Definition pend (s : chain) : list string :=
  match s with
  | Single t => pend_term t
  | Plus _ t => pend_term t ++ ["+"]
  | Minus _ t => pend_term t ++ ["-"]
  end.

Fixpoint emit (s : chain) : list string :=
  match s with
  | Single t => emit_term t
  | Plus s t | Minus s t => emit s ++ pend s ++ emit_term t
  end.

(** The operators that an expression without parentheses leaves on the
    stack. *)
Definition is_held (el : string) : bool :=
  String.eqb el "+" || String.eqb el "-" || String.eqb el "*".

(** An operator stack with no multiplication on top. *)
Definition low (stack : list string) : bool :=
  match stack with
  | [] => true
  | top :: _ => String.eqb top "+" || String.eqb top "-"
  end.

End Flat.

(** The object [o] on the value stack reads, inside the text given to
    [eval], as the integer [z]. *)
Definition denotes (o : pyobj) (z : Z) : Prop :=
  exists op, read_operand o = Ok op /\ operand_value op = Ok (PInt z).

(** The object [o] stands for the integer [z], both inside the text given
    to [eval] and for [int]. *)
Definition holds (o : pyobj) (z : Z) : Prop :=
  denotes o z /\ py_int o = Ok z.

(** What an operator token computes from two integers. *)
Definition int_op (el : string) (oa : operand) (x y : Z) : result pyobj :=
  if String.eqb el "**" then
    base ← atom_value (body oa);
    r ← Num.pow base (PInt y);
    Ok (with_signs (minus oa) r)
  else if String.eqb el "+" then Num.add (PInt x) (PInt y)
  else if String.eqb el "-" then Num.sub (PInt x) (PInt y)
  else if String.eqb el "*" then Num.mul (PInt x) (PInt y)
  else Num.truediv (PInt x) (PInt y).

(** ** Notions used in the statements *)

(** A number, in the sense of [is_number], is made of minus signs and
    digits. *)
Definition is_number_char (c : ascii) : bool :=
  Py.char_eqb c "-"%char || Py.char_isdigit c.

(** The two sign characters. *)
Definition is_plus_minus (c : ascii) : bool :=
  Py.char_eqb c "+"%char || Py.char_eqb c "-"%char.

(** The text does not go on with a character of the sign class. *)
Definition ends_run (rest : string) : bool :=
  match rest with
  | EmptyString => true
  | String c _ => negb (is_sign_char c)
  end.

(** The text ends with a character of the sign class. *)
Fixpoint last_is_sign (pre : string) : bool :=
  match pre with
  | EmptyString => false
  | String c EmptyString => is_sign_char c
  | String _ pre' => last_is_sign pre'
  end.

(** The token a run of sign characters stands for. *)
Definition sign_token (run : string) : string :=
  if Nat.odd (Py.count "-"%char run) then "-" else "+".

(** A character that is neither white space nor the equals sign: the two
    sides of an assignment are made of such characters. *)
Definition plain_char (c : ascii) : bool :=
  negb (Py.char_isspace c) && negb (Py.char_eqb c "="%char).

Definition plain (s : string) : bool := Py.nonempty s && Py.all plain_char s.

(** The line reaches the last branch of [run_calc], the one for
    expressions. *)
Definition is_expression_line (inp : string) : bool :=
  negb (is_empty inp) && negb (is_number inp) && negb (is_variable inp)
  && negb (is_assignment inp) && negb (is_command inp).

(** Two characters of [* / ^] next to each other somewhere in the text. *)
Definition adjacent_ops (expr : string) : Prop :=
  exists pre c d post,
    expr = pre +:+ String c (String d post)
    /\ is_muldiv c = true /\ is_muldiv d = true.

(** What the assignment branch of [run_calc] does with the two words of a
    line. *)
Definition assignment_effect (c : Calculator) (x value : string)
  : result effect :=
  match (_ ← assign_valid (variables c) [x; value];
         assign (variables c) x value) with
  | Ok vars' => Ok (MkCalculator (run c) vars', [])
  | Raise e => print_exn c e
  | NotModelled => NotModelled
  end.

(** The binary64 number 2.5, that is 5 * 2^50 * 2^(-51). *)
Definition two_and_a_half : spec_float :=
  S754_finite false 5629499534213120 (-51).

(** Every stored value is the text of a number: what [assign_valid] lets
    through and [assign] stores. *)
Definition store_ok (vars : gmap string string) : Prop :=
  forall k v, vars !! k = Some v -> is_number v = true.

(** The expression [(1+2-3)] of the reference grammar. *)
Definition grouped_sum : Reference.sum :=
  let lit n := Reference.Power (Reference.Primary (Reference.Lit n)) in
  Reference.Term (Reference.Power (Reference.Primary (Reference.Group
    (Reference.Sub (Reference.Add (Reference.Term (lit 1%N)) (lit 2%N))
                   (lit 3%N))))).

(** The expression [2^2^3] of the reference grammar. *)
Definition power_tower : Reference.sum :=
  Reference.Term (Reference.Power
    (Reference.Pow (Reference.Pow (Reference.Primary (Reference.Lit 2%N))
                                  (Reference.Lit 2%N))
                   (Reference.Lit 3%N))).

(** ** Notions used in the further properties *)

(** A token that [to_postfix] sends straight to the output. *)
Definition is_operand_token (el : string) : bool :=
  Py.isdigit el || Py.isalpha el.

(** The number of right parentheses among the tokens. *)
Definition count_closing (infix : list string) : nat :=
  length (List.filter (String.eqb ")") infix).

(** The tokens [to_array] can produce: a run of letters and digits, or one
    of seven fixed tokens. *)
Definition is_token (tok : string) : bool :=
  (Py.nonempty tok && Py.all is_operand_char tok)
  || String.eqb tok "(" || String.eqb tok ")" || String.eqb tok "*"
  || String.eqb tok "/" || String.eqb tok "**" || String.eqb tok "+"
  || String.eqb tok "-".

(** A character that the tokenizer passes over. *)
Definition is_ignored_char (c : ascii) : bool :=
  negb (is_operand_char c)
  && negb (Py.char_eqb c "("%char || Py.char_eqb c ")"%char
           || Py.char_eqb c "*"%char || Py.char_eqb c "/"%char)
  && negb (Py.char_eqb c "^"%char)
  && negb (is_sign_char c).

(** The number of left parentheses among the tokens. *)
Definition count_opening (infix : list string) : nat :=
  length (List.filter (String.eqb "(") infix).

(** The last character of the text satisfies [p]. *)
Fixpoint last_satisfies (p : ascii -> bool) (pre : string) : bool :=
  match pre with
  | EmptyString => false
  | String c EmptyString => p c
  | String _ pre' => last_satisfies p pre'
  end.

(** The text ends with a letter or a digit. *)
Definition last_is_operand (pre : string) : bool :=
  last_satisfies is_operand_char pre.

(** The text does not go on with a letter or a digit. *)
Definition ends_word (rest : string) : bool :=
  match rest with
  | EmptyString => true
  | String c _ => negb (is_operand_char c)
  end.

(** Every name in the store is alphabetic. *)
Definition keys_ok (vars : gmap string string) : Prop :=
  forall k v, vars !! k = Some v -> Py.isalpha k = true.

(** The messages of the assignment branch for a malformed line. *)
Definition is_assignment_complaint (out : list string) : bool :=
  match out with
  | [msg] => String.eqb msg "Invalid identifier"
             || String.eqb msg "Invalid assignment"
  | _ => false
  end.

(** A token made of decimal digits only. *)
Definition is_decimal_token (d : string) : bool :=
  Py.nonempty d && Py.all Py.char_isdecimal d.

(** The operator tokens of the tokenizer. *)
Definition operator_tokens : list string := ["+"; "-"; "*"; "/"; "**"].

(** The four operators that [precedence] knows and the tokenizer writes. *)
Definition known_operators : list string := ["+"; "-"; "*"; "/"].

(** ** Facts about characters and strings *)

Section Characters.

Local Ltac by_cases c :=
  destruct c as [[] [] [] [] [] [] [] []]; vm_compute; try reflexivity;
  intros; try discriminate.

Lemma alpha_not_digit (c : ascii) :
  Py.char_isalpha c = true -> Py.char_isdigit c = false.
Proof. by_cases c. Qed.

Lemma alpha_not_space (c : ascii) :
  Py.char_isalpha c = true -> Py.char_isspace c = false.
Proof. by_cases c. Qed.

Lemma alpha_not_minus (c : ascii) :
  Py.char_isalpha c = true -> Py.char_eqb c "-"%char = false.
Proof. by_cases c. Qed.

Lemma alpha_not_blank (c : ascii) :
  Py.char_isalpha c = true -> Py.char_eqb c " "%char = false.
Proof. by_cases c. Qed.

Lemma alpha_not_equals (c : ascii) :
  Py.char_isalpha c = true -> Py.char_eqb c "="%char = false.
Proof. by_cases c. Qed.

Lemma digit_not_space (c : ascii) :
  Py.char_isdigit c = true -> Py.char_isspace c = false.
Proof. by_cases c. Qed.

Lemma digit_not_equals (c : ascii) :
  Py.char_isdigit c = true -> Py.char_eqb c "="%char = false.
Proof. by_cases c. Qed.

Lemma operand_char_spec (c : ascii) :
  is_operand_char c = Py.char_isalpha c || Py.char_isdigit c.
Proof. by_cases c. Qed.

Lemma alpha_not_slash (c : ascii) :
  Py.char_isalpha c = true -> Py.char_eqb "/"%char c = false.
Proof. by_cases c. Qed.

Lemma alpha_not_paren (c : ascii) :
  Py.char_isalpha c = true ->
  Py.char_eqb c "("%char = false /\ Py.char_eqb c ")"%char = false.
Proof. by_cases c; split; reflexivity. Qed.

Lemma alpha_not_muldiv (c : ascii) :
  Py.char_isalpha c = true -> is_muldiv c = false.
Proof. by_cases c. Qed.

Lemma alpha_operand_char (c : ascii) :
  Py.char_isalpha c = true -> is_operand_char c = true.
Proof. by_cases c. Qed.

Lemma char_eqb_eq (a b : ascii) : Py.char_eqb a b = true <-> a = b.
Proof. apply Ascii.eqb_eq. Qed.

End Characters.

Section Strings.

Lemma all_app (p : ascii -> bool) (a b : string) :
  Py.all p (a +:+ b) = Py.all p a && Py.all p b.
Proof.
  induction a as [|c a IH]; simpl; [reflexivity|].
  rewrite IH. apply andb_assoc.
Qed.

Lemma all_impl (p q : ascii -> bool) (s : string) :
  (forall c, p c = true -> q c = true) ->
  Py.all p s = true -> Py.all q s = true.
Proof.
  intros Hpq. induction s as [|c s IH]; simpl; [reflexivity|].
  intros [Hc Hs]%andb_true_iff. rewrite (Hpq c Hc), (IH Hs). reflexivity.
Qed.

Lemma isalpha_inv (s : string) :
  Py.isalpha s = true ->
  exists c s', s = String c s' /\ Py.char_isalpha c = true
               /\ Py.all Py.char_isalpha s' = true.
Proof.
  destruct s as [|c s']; [discriminate|].
  unfold Py.isalpha. simpl. intros [Hc Hs]%andb_true_iff.
  exists c, s'. auto.
Qed.

Lemma isalpha_all (s : string) :
  Py.isalpha s = true -> Py.all Py.char_isalpha s = true.
Proof. unfold Py.isalpha. intros [_ H]%andb_true_iff. exact H. Qed.

Lemma alpha_lstrip (s : string) :
  Py.isalpha s = true -> Py.lstrip "-"%char s = s.
Proof.
  intros (c & s' & -> & Hc & _)%isalpha_inv. simpl.
  rewrite (alpha_not_minus c Hc). reflexivity.
Qed.

Lemma alpha_not_isdigit (s : string) :
  Py.isalpha s = true -> Py.isdigit s = false.
Proof.
  intros (c & s' & -> & Hc & _)%isalpha_inv.
  unfold Py.isdigit. simpl. rewrite (alpha_not_digit c Hc). reflexivity.
Qed.

Lemma alpha_not_number (s : string) :
  Py.isalpha s = true -> is_number s = false.
Proof.
  intros H. unfold is_number. rewrite (alpha_lstrip s H).
  apply alpha_not_isdigit, H.
Qed.

Lemma alpha_remove_blank (s : string) :
  Py.all Py.char_isalpha s = true -> Py.remove " "%char s = s.
Proof.
  induction s as [|c s IH]; simpl; [reflexivity|].
  intros [Hc Hs]%andb_true_iff.
  rewrite (alpha_not_blank c Hc), (IH Hs). reflexivity.
Qed.

Lemma alpha_is_variable (s : string) :
  Py.isalpha s = true -> is_variable s = true.
Proof.
  intros H. unfold is_variable.
  rewrite (alpha_remove_blank s (isalpha_all s H)). exact H.
Qed.

Lemma alpha_not_empty (s : string) :
  Py.isalpha s = true -> is_empty s = false.
Proof. intros (c & s' & -> & _)%isalpha_inv. reflexivity. Qed.

Lemma number_chars (s : string) :
  is_number s = true -> Py.all is_number_char s = true.
Proof.
  unfold is_number, is_number_char.
  induction s as [|c s IH]; simpl; [reflexivity|].
  destruct (Py.char_eqb c "-"%char) eqn:E; simpl.
  - exact IH.
  - unfold Py.isdigit. simpl. intros [Hc Hs]%andb_true_iff.
    rewrite Hc. simpl.
    eapply all_impl; [|exact Hs]. intros d ->. apply orb_true_r.
Qed.

End Strings.

(** ** The tokenizer *)

Section Tokenizer.

Lemma span_length (p : ascii -> bool) (s : string) :
  String.length (Py.span p s).2 <= String.length s.
Proof.
  induction s as [|c s IH]; simpl; [lia|].
  destruct (p c); [|simpl; lia].
  destruct (Py.span p s) as [run rest]. simpl in *. lia.
Qed.

(** The loop never needs more turns than there are characters, so the
    function does not depend on any larger bound. *)
Lemma to_array_loop_fuel (n m : nat) (expr : string) :
  String.length expr <= n -> String.length expr <= m ->
  to_array_loop n expr = to_array_loop m expr.
Proof.
  revert m expr. induction n as [|n IH]; intros m expr Hn Hm.
  - destruct expr; [|simpl in Hn; lia]. destruct m; reflexivity.
  - destruct m as [|m].
    + destruct expr; [reflexivity|simpl in Hm; lia].
    + destruct expr as [|c rest]; [reflexivity|]. simpl in Hn, Hm. simpl.
      pose proof (span_length is_operand_char rest) as Ho.
      pose proof (span_length is_sign_char rest) as Hs.
      destruct (Py.span is_operand_char rest) as [run1 rest1].
      destruct (Py.span is_sign_char rest) as [run2 rest2].
      simpl in Ho, Hs.
      rewrite (IH m rest1), (IH m rest2), (IH m rest) by lia.
      reflexivity.
Qed.

Lemma to_array_fuel (n : nat) (expr : string) :
  String.length expr <= n -> to_array_loop n expr = to_array expr.
Proof. intros H. apply to_array_loop_fuel; [exact H|lia]. Qed.

Lemma span_run (p : ascii -> bool) (run rest : string) :
  Py.all p run = true ->
  match rest with String c _ => p c = false | EmptyString => True end ->
  Py.span p (run +:+ rest) = (run, rest).
Proof.
  intros Hrun Hrest. induction run as [|c run IH]; simpl.
  - destruct rest as [|d rest]; [reflexivity|]. simpl. rewrite Hrest.
    reflexivity.
  - simpl in Hrun. apply andb_true_iff in Hrun as [Hc Hr].
    rewrite Hc, (IH Hr). reflexivity.
Qed.

Lemma length_app (a b : string) :
  String.length (a +:+ b) = String.length a + String.length b.
Proof. induction a as [|c a IH]; simpl; [reflexivity|]. rewrite IH. reflexivity. Qed.

(** A run of sign characters at the head of the text becomes one token. *)
Lemma to_array_sign_run (run rest : string) :
  Py.nonempty run = true ->
  Py.all is_sign_char run = true ->
  ends_run rest = true ->
  to_array (run +:+ rest) = fold_signs run :: to_array rest.
Proof.
  intros Hne Hall Hend. destruct run as [|c run]; [discriminate|].
  simpl in Hall. apply andb_true_iff in Hall as [Hc Hrun].
  unfold to_array at 1. simpl.
  assert (is_operand_char c = false) as ->.
  { revert Hc. clear.
    destruct c as [[] [] [] [] [] [] [] []]; vm_compute; congruence. }
  assert (Py.char_eqb c "("%char || Py.char_eqb c ")"%char
          || Py.char_eqb c "*"%char || Py.char_eqb c "/"%char = false) as ->.
  { revert Hc. clear.
    destruct c as [[] [] [] [] [] [] [] []]; vm_compute; congruence. }
  assert (Py.char_eqb c "^"%char = false) as ->.
  { revert Hc. clear.
    destruct c as [[] [] [] [] [] [] [] []]; vm_compute; congruence. }
  rewrite Hc, (span_run is_sign_char run rest Hrun).
  - f_equal. apply to_array_fuel. rewrite length_app. lia.
  - destruct rest as [|d rest]; [exact I|]. simpl in Hend.
    apply negb_true_iff in Hend. exact Hend.
Qed.

(** One turn of the loop, with the rest of the loop as [to_array]. *)
Lemma to_array_unfold (c : ascii) (rest : string) :
  to_array (String c rest) =
    if is_operand_char c then
      let '(run, rest') := Py.span is_operand_char rest in
      String c run :: to_array rest'
    else if Py.char_eqb c "("%char || Py.char_eqb c ")"%char
            || Py.char_eqb c "*"%char || Py.char_eqb c "/"%char then
      String c EmptyString :: to_array rest
    else if Py.char_eqb c "^"%char then "**" :: to_array rest
    else if is_sign_char c then
      let '(run, rest') := Py.span is_sign_char rest in
      fold_signs (String c run) :: to_array rest'
    else to_array rest.
Proof.
  unfold to_array at 1. simpl.
  pose proof (span_length is_operand_char rest) as Ho.
  pose proof (span_length is_sign_char rest) as Hs.
  destruct (Py.span is_operand_char rest) as [run1 rest1].
  destruct (Py.span is_sign_char rest) as [run2 rest2].
  simpl in Ho, Hs.
  rewrite (to_array_fuel _ rest1), (to_array_fuel _ rest2),
    (to_array_fuel _ rest) by lia.
  reflexivity.
Qed.

Lemma span_app (p : ascii -> bool) (s : string) :
  (Py.span p s).1 +:+ (Py.span p s).2 = s.
Proof.
  induction s as [|c s IH]; simpl; [reflexivity|].
  destruct (p c); [|reflexivity].
  destruct (Py.span p s) as [run rest]. simpl in *. rewrite <- IH.
  reflexivity.
Qed.

(** A span that stops on a character of [a], or on the first character of
    [b], is the same in [a +:+ b]. *)
Lemma span_stops (p : ascii -> bool) (a b : string) :
  Py.nonempty (Py.span p a).2 = true
  \/ match b with String c _ => p c = false | EmptyString => True end ->
  Py.span p (a +:+ b) = ((Py.span p a).1, (Py.span p a).2 +:+ b).
Proof.
  intros H. induction a as [|c a IH]; simpl.
  - destruct H as [H|H]; [discriminate|].
    destruct b as [|d b]; [reflexivity|]. simpl. rewrite H. reflexivity.
  - simpl in H. destruct (p c); [|reflexivity].
    destruct (Py.span p a) as [run rest]. simpl in *.
    rewrite (IH H). reflexivity.
Qed.

Lemma last_is_sign_app (a b : string) :
  last_is_sign (a +:+ b)
  = if Py.nonempty b then last_is_sign b else last_is_sign a.
Proof.
  induction a as [|c a IH].
  - simpl. destruct b; reflexivity.
  - change (String c a +:+ b) with (String c (a +:+ b)).
    destruct a as [|d a].
    + simpl. destruct b; reflexivity.
    + change (last_is_sign (String c (String d a +:+ b)))
        with (last_is_sign (String d a +:+ b)).
      rewrite IH. reflexivity.
Qed.

Lemma last_is_sign_suffix (a b : string) :
  last_is_sign (a +:+ b) = false -> last_is_sign b = false.
Proof.
  rewrite last_is_sign_app. destruct b; [reflexivity|]. simpl. auto.
Qed.

Lemma append_empty (a : string) : a +:+ "" = a.
Proof.
  induction a as [|c a IH]; [reflexivity|].
  change (String c (a +:+ "") = String c a). rewrite IH. reflexivity.
Qed.

Lemma span_all (p : ascii -> bool) (s : string) :
  Py.all p (Py.span p s).1 = true.
Proof.
  induction s as [|c s IH]; simpl; [reflexivity|].
  destruct (p c) eqn:E; [|reflexivity].
  destruct (Py.span p s) as [run rest]. simpl in *. rewrite E, IH. reflexivity.
Qed.

Lemma last_is_sign_all (s : string) :
  Py.nonempty s = true -> Py.all is_sign_char s = true ->
  last_is_sign s = true.
Proof.
  induction s as [|c s IH]; [discriminate|]. intros _. simpl.
  intros [Hc Hs]%andb_true_iff. destruct s as [|d s]; [exact Hc|].
  apply IH; [reflexivity|exact Hs].
Qed.

(** The tokens of a text that is cut just before a sign character, where
    the part before the cut does not end with one, are the tokens of the
    two parts. *)
Lemma to_array_cut (n : nat) (pre s : string) :
  String.length pre <= n ->
  last_is_sign pre = false ->
  match s with String c _ => is_sign_char c = true | EmptyString => True end ->
  to_array (pre +:+ s) = to_array pre ++ to_array s.
Proof.
  revert pre. induction n as [|n IH]; intros pre Hlen Hlast Hs.
  - destruct pre; [reflexivity|simpl in Hlen; lia].
  - destruct pre as [|c pre]; [reflexivity|].
    change (String c pre +:+ s) with (String c (pre +:+ s)).
    rewrite !to_array_unfold. simpl in Hlen.
    assert (Hsuf : forall a b, pre = a +:+ b -> last_is_sign b = false).
    { intros a b ->. apply (last_is_sign_suffix (String c a) b). exact Hlast. }
    assert (Hshort : forall p, String.length (Py.span p pre).2 <= n).
    { intros p. pose proof (span_length p pre). lia. }
    destruct (is_operand_char c) eqn:Eo.
    { rewrite (span_stops is_operand_char pre s).
      - pose proof (span_app is_operand_char pre) as Happ.
        specialize (Hshort is_operand_char).
        destruct (Py.span is_operand_char pre) as [run rest]. simpl in *.
        rewrite (IH rest); eauto.
      - right. destruct s as [|d s]; [exact I|]. revert Hs. clear.
        destruct d as [[] [] [] [] [] [] [] []]; vm_compute; congruence. }
    destruct (Py.char_eqb c "("%char || Py.char_eqb c ")"%char
              || Py.char_eqb c "*"%char || Py.char_eqb c "/"%char).
    { rewrite (IH pre); [reflexivity|lia|apply (Hsuf "" pre); reflexivity
                        |exact Hs]. }
    destruct (Py.char_eqb c "^"%char).
    { rewrite (IH pre); [reflexivity|lia|apply (Hsuf "" pre); reflexivity
                        |exact Hs]. }
    destruct (is_sign_char c) eqn:Ec.
    { rewrite (span_stops is_sign_char pre s).
      - pose proof (span_app is_sign_char pre) as Happ.
        specialize (Hshort is_sign_char).
        destruct (Py.span is_sign_char pre) as [run rest]. simpl in *.
        rewrite (IH rest); eauto.
      - left. pose proof (span_app is_sign_char pre) as Happ.
        pose proof (span_all is_sign_char pre) as Hall.
        destruct (Py.span is_sign_char pre) as [run rest].
        simpl in Happ, Hall. simpl.
        destruct rest as [|d rest]; [|reflexivity]. exfalso.
        rewrite append_empty in Happ. subst pre.
        rewrite (last_is_sign_all (String c run)) in Hlast;
          [discriminate|reflexivity|]. simpl. rewrite Ec. exact Hall. }
    rewrite (IH pre); [reflexivity|lia|apply (Hsuf "" pre); reflexivity
                      |exact Hs].
Qed.

End Tokenizer.

(** ** Lines *)

Section Lines.

Lemma remove_app (c : ascii) (a b : string) :
  Py.remove c (a +:+ b) = Py.remove c a +:+ Py.remove c b.
Proof.
  induction a as [|d a IH]; [reflexivity|].
  change (String d a +:+ b) with (String d (a +:+ b)). simpl.
  rewrite IH. destruct (Py.char_eqb d c); reflexivity.
Qed.

Lemma replace_app (c d : ascii) (a b : string) :
  Py.replace c d (a +:+ b) = Py.replace c d a +:+ Py.replace c d b.
Proof.
  induction a as [|e a IH]; [reflexivity|].
  change (String e a +:+ b) with (String e (a +:+ b)). simpl.
  rewrite IH. reflexivity.
Qed.

Lemma contains_app (c : ascii) (a b : string) :
  Py.contains c (a +:+ b) = Py.contains c a || Py.contains c b.
Proof.
  induction a as [|d a IH]; [reflexivity|].
  change (String d a +:+ b) with (String d (a +:+ b)). simpl.
  rewrite IH. apply orb_assoc.
Qed.

Lemma plain_replace (s : string) :
  Py.all plain_char s = true -> Py.replace "="%char " "%char s = s.
Proof.
  induction s as [|c s IH]; simpl; [reflexivity|].
  intros [Hc Hs]%andb_true_iff. rewrite (IH Hs).
  unfold plain_char in Hc. apply andb_true_iff in Hc as [_ Hc].
  apply negb_true_iff in Hc. rewrite Hc. reflexivity.
Qed.

Lemma split_word (s rest : string) (word : list ascii) :
  Py.all plain_char s = true ->
  Py.split_from word (s +:+ rest)
  = Py.split_from (rev (String.list_ascii_of_string s) ++ word) rest.
Proof.
  revert word. induction s as [|c s IH]; intros word; [reflexivity|].
  change (String c s +:+ rest) with (String c (s +:+ rest)). simpl.
  intros [Hc Hs]%andb_true_iff.
  unfold plain_char in Hc. apply andb_true_iff in Hc as [Hc _].
  apply negb_true_iff in Hc. rewrite Hc, (IH _ Hs), <- app_assoc.
  reflexivity.
Qed.

Lemma split_one (s : string) :
  plain s = true -> Py.split s = [s].
Proof.
  unfold plain, Py.split. intros [Hne Hs]%andb_true_iff.
  rewrite <- (append_empty s) at 1. rewrite (split_word s "" [] Hs).
  rewrite app_nil_r. simpl.
  destruct s as [|c s]; [discriminate|].
  destruct (rev (String.list_ascii_of_string (String c s))) eqn:E.
  - apply (f_equal (@length ascii)) in E. rewrite length_rev in E.
    discriminate.
  - rewrite <- E, rev_involutive, String.string_of_list_ascii_of_string.
    reflexivity.
Qed.

(** The two words of an assignment line. *)
Lemma split_assignment (x value : string) :
  plain x = true -> plain value = true ->
  Py.split (Py.replace "="%char " "%char (x +:+ " = " +:+ value))
  = [x; value].
Proof.
  intros Hx Hv.
  pose proof Hx as [Hxne Hxs]%andb_true_iff.
  pose proof Hv as [_ Hvs]%andb_true_iff.
  rewrite !replace_app, (plain_replace x Hxs), (plain_replace value Hvs).
  unfold Py.split. rewrite (split_word x _ [] Hxs), app_nil_r.
  change (Py.replace "="%char " "%char " = " +:+ value)
    with (String " " (String " " (String " " value))).
  destruct x as [|c x]; [discriminate|].
  destruct (rev (String.list_ascii_of_string (String c x))) eqn:E.
  - apply (f_equal (@length ascii)) in E. rewrite length_rev in E.
    discriminate.
  - rewrite <- E. cbn [Py.split_from]. 
    change (Py.char_isspace " ") with true. cbn iota.
    rewrite rev_involutive, String.string_of_list_ascii_of_string.
    rewrite E. cbn [app]. f_equal.
    apply (split_one value Hv).
Qed.

Lemma alpha_plain (s : string) : Py.isalpha s = true -> plain s = true.
Proof.
  unfold Py.isalpha, plain. intros [-> H]%andb_true_iff. simpl.
  eapply all_impl; [|exact H]. intros c Hc. unfold plain_char.
  rewrite (alpha_not_space c Hc), (alpha_not_equals c Hc). reflexivity.
Qed.

Lemma number_plain (s : string) : is_number s = true -> plain s = true.
Proof.
  intros H. unfold plain. apply andb_true_iff. split.
  - destruct s; [discriminate|reflexivity].
  - eapply all_impl; [|exact (number_chars s H)]. clear.
    intros c. unfold is_number_char, plain_char.
    destruct c as [[] [] [] [] [] [] [] []]; vm_compute; congruence.
Qed.

(** A line [x = value] whose left side is a name takes the assignment
    branch, with the words [x] and [value]. *)
Lemma assignment_line (c : Calculator) (x value : string) :
  Py.isalpha x = true -> plain value = true ->
  process_line c (x +:+ " = " +:+ value) = assignment_effect c x value.
Proof.
  intros Hx Hv. unfold process_line.
  destruct (isalpha_inv x Hx) as (a & x' & Ex & Ha & Hx').
  assert (is_empty (x +:+ " = " +:+ value) = false) as ->
    by (rewrite Ex; reflexivity).
  assert (is_number (x +:+ " = " +:+ value) = false) as ->.
  { rewrite Ex. unfold is_number.
    change (String a x' +:+ " = " +:+ value)
      with (String a (x' +:+ " = " +:+ value)).
    simpl. rewrite (alpha_not_minus a Ha). unfold Py.isdigit. simpl.
    rewrite (alpha_not_digit a Ha). reflexivity. }
  assert (is_variable (x +:+ " = " +:+ value) = false) as ->.
  { unfold is_variable, Py.isalpha. rewrite !remove_app, !all_app.
    change (Py.all Py.char_isalpha (Py.remove " " " = ")) with false.
    rewrite andb_false_r, andb_false_r. reflexivity. }
  assert (is_assignment (x +:+ " = " +:+ value) = true) as ->.
  { unfold is_assignment. rewrite !contains_app.
    change (Py.contains "=" " = ") with true.
    rewrite orb_true_l, orb_true_r. reflexivity. }
  rewrite (split_assignment x value (alpha_plain x Hx) Hv).
  reflexivity.
Qed.

(** A line that is a name takes the branch of variable references. *)
Lemma reference_line (c : Calculator) (x : string) :
  Py.isalpha x = true ->
  process_line c x =
    match variables c !! x with
    | Some v => Ok (c, [v])
    | None => Ok (c, ["Unknown variable"])
    end.
Proof.
  intros Hx. unfold process_line.
  rewrite (alpha_not_empty x Hx), (alpha_not_number x Hx),
    (alpha_is_variable x Hx), (alpha_remove_blank x (isalpha_all x Hx)).
  reflexivity.
Qed.

End Lines.

(** ** The variable store *)

Section Store.

Lemma assign_number (vars : gmap string string) (x value : string) :
  Py.isalpha x = true -> is_number value = true ->
  assign_valid vars [x; value] = Ok tt
  /\ assign vars x value = Ok (<[x := value]> vars).
Proof.
  intros Hx Hv. unfold assign_valid, assign. rewrite Hx, Hv. auto.
Qed.

Lemma assign_variable (vars : gmap string string) (x y v : string) :
  Py.isalpha x = true -> Py.isalpha y = true -> vars !! y = Some v ->
  assign_valid vars [x; y] = Ok tt
  /\ assign vars x y = Ok (<[x := v]> vars).
Proof.
  intros Hx Hy Hv. unfold assign_valid, assign.
  rewrite Hx, Hy, (alpha_not_number y Hy), Hv. simpl.
  try rewrite bool_decide_eq_true_2 by eauto. auto.
Qed.

Lemma assign_unknown (vars : gmap string string) (x y : string) :
  Py.isalpha x = true -> Py.isalpha y = true -> vars !! y = None ->
  assign_valid vars [x; y] = Raise UnknownVarError.
Proof.
  intros Hx Hy Hv. unfold assign_valid.
  rewrite Hx, Hy, (alpha_not_number y Hy), Hv. simpl.
  try (rewrite bool_decide_eq_false_2; [|intros [? ?]; discriminate]).
  reflexivity.
Qed.

(** An unknown name alone on a line, or on the right of an assignment, is
    reported and the state is kept. *)
Lemma unknown_reference (c : Calculator) (y : string) :
  Py.isalpha y = true -> variables c !! y = None ->
  process_line c y = Ok (c, ["Unknown variable"]).
Proof. intros Hy Hv. rewrite (reference_line c y Hy), Hv. reflexivity. Qed.

Lemma unknown_right_side (c : Calculator) (x y : string) :
  Py.isalpha x = true -> Py.isalpha y = true -> variables c !! y = None ->
  process_line c (x +:+ " = " +:+ y) = Ok (c, ["Unknown variable"]).
Proof.
  intros Hx Hy Hv. rewrite (assignment_line c x y Hx (alpha_plain y Hy)).
  unfold assignment_effect.
  rewrite (assign_unknown (variables c) x y Hx Hy Hv). reflexivity.
Qed.

Lemma assignment_effect_ok (c : Calculator) (x value : string)
    (vars' : gmap string string) :
  assign_valid (variables c) [x; value] = Ok tt ->
  assign (variables c) x value = Ok vars' ->
  assignment_effect c x value = Ok (MkCalculator (run c) vars', []).
Proof.
  intros E1 E2. unfold assignment_effect. rewrite E1. simpl. rewrite E2.
  reflexivity.
Qed.

Lemma alpha_contains_equals (s : string) :
  Py.all Py.char_isalpha s = true -> Py.contains "="%char s = false.
Proof.
  induction s as [|c s IH]; simpl; [reflexivity|].
  intros [Hc Hs]%andb_true_iff.
  rewrite (alpha_not_equals c Hc), (IH Hs). reflexivity.
Qed.

Lemma alpha_count_paren (s rest : string) :
  Py.all Py.char_isalpha s = true ->
  Py.count "("%char (s +:+ rest) = Py.count "("%char rest
  /\ Py.count ")"%char (s +:+ rest) = Py.count ")"%char rest.
Proof.
  induction s as [|c s IH]; [auto|].
  change (String c s +:+ rest) with (String c (s +:+ rest)). simpl.
  intros [Hc Hs]%andb_true_iff.
  destruct (alpha_not_paren c Hc) as [-> ->]. exact (IH Hs).
Qed.

Lemma alpha_repeated_op (s rest : string) :
  Py.all Py.char_isalpha s = true ->
  has_repeated_op (s +:+ rest) = has_repeated_op rest.
Proof.
  induction s as [|c s IH]; [reflexivity|].
  change (String c s +:+ rest) with (String c (s +:+ rest)). simpl.
  intros [Hc Hs]%andb_true_iff.
  rewrite (alpha_not_muldiv c Hc), (IH Hs). reflexivity.
Qed.

(** An unknown name as an operand: the look-up in [calculate_postfix]
    raises [KeyError], and [run_calc] has no handler for it. *)
Lemma unknown_operand (c : Calculator) (y : string) :
  Py.isalpha y = true -> variables c !! y = None ->
  to_array (y +:+ " + 1") = [y; "+"; "1"]
  /\ to_postfix [y; "+"; "1"] = Ok [y; "1"; "+"]
  /\ calculate_postfix (variables c) [y; "1"; "+"] = Raise KeyError
  /\ process_line c (y +:+ " + 1") = Raise KeyError.
Proof.
  intros Hy Hv.
  destruct (isalpha_inv y Hy) as (a & y' & Ey & Ha & Hy').
  assert (Harr : to_array (y +:+ " + 1") = [y; "+"; "1"]).
  { rewrite Ey.
    change (String a y' +:+ " + 1") with (String a (y' +:+ " + 1")).
    rewrite to_array_unfold, (alpha_operand_char a Ha).
    rewrite (span_run is_operand_char y' " + 1"); [reflexivity| |reflexivity].
    eapply all_impl; [|exact Hy']. apply alpha_operand_char. }
  assert (Hpost : to_postfix [y; "+"; "1"] = Ok [y; "1"; "+"]).
  { unfold to_postfix. simpl. rewrite Hy, orb_true_r. reflexivity. }
  assert (Hcalc : calculate_postfix (variables c) [y; "1"; "+"]
                  = Raise KeyError).
  { unfold calculate_postfix. simpl. unfold calculate_step.
    rewrite (alpha_not_number y Hy), Hy, Hv. reflexivity. }
  repeat split; try assumption.
  unfold process_line.
  assert (is_empty (y +:+ " + 1") = false) as -> by (rewrite Ey; reflexivity).
  assert (is_number (y +:+ " + 1") = false) as ->.
  { rewrite Ey. unfold is_number.
    change (String a y' +:+ " + 1") with (String a (y' +:+ " + 1")).
    simpl. rewrite (alpha_not_minus a Ha). unfold Py.isdigit. simpl.
    rewrite (alpha_not_digit a Ha). reflexivity. }
  assert (is_variable (y +:+ " + 1") = false) as ->.
  { unfold is_variable, Py.isalpha. rewrite remove_app, all_app.
    change (Py.all Py.char_isalpha (Py.remove " " " + 1")) with false.
    rewrite andb_false_r, andb_false_r. reflexivity. }
  assert (is_assignment (y +:+ " + 1") = false) as ->.
  { unfold is_assignment.
    rewrite contains_app, (alpha_contains_equals y (isalpha_all y Hy)).
    reflexivity. }
  assert (is_command (y +:+ " + 1") = false) as ->.
  { rewrite Ey. simpl. apply alpha_not_slash, Ha. }
  assert (check_expr (y +:+ " + 1") = Ok tt) as ->.
  { unfold check_expr.
    destruct (alpha_count_paren y " + 1" (isalpha_all y Hy)) as [-> ->].
    rewrite (alpha_repeated_op y " + 1" (isalpha_all y Hy)). reflexivity. }
  rewrite Harr, Hpost. simpl. rewrite Hcalc. reflexivity.
Qed.

(** The store only ever holds texts of numbers. *)
Lemma assign_store_ok (vars vars' : gmap string string) (x value : string) :
  store_ok vars -> assign vars x value = Ok vars' -> store_ok vars'.
Proof.
  intros Hok. unfold assign. destruct (is_number value) eqn:Ev.
  - intros [= <-] k v. destruct (decide (x = k)) as [->|Hne].
    + rewrite lookup_insert_eq. intros [= <-]. exact Ev.
    + rewrite lookup_insert_ne by exact Hne. apply Hok.
  - destruct (vars !! value) as [w|] eqn:Ew; [|discriminate].
    intros [= <-] k v. destruct (decide (x = k)) as [->|Hne].
    + rewrite lookup_insert_eq. intros [= <-]. exact (Hok _ _ Ew).
    + rewrite lookup_insert_ne by exact Hne. apply Hok.
Qed.

Lemma execute_cmd_variables (c c' : Calculator) (cmd : string)
    (out : list string) :
  execute_cmd c cmd = Ok (c', out) -> variables c' = variables c.
Proof.
  unfold execute_cmd.
  destruct (String.eqb cmd "/exit"); [intros [= <- _]; reflexivity|].
  destruct (String.eqb cmd "/help"); [intros [= <- _]; reflexivity|].
  discriminate.
Qed.

(** Every text in the store is the text of a number, after any line, if it
    was so before. *)
Lemma process_line_store_ok (c c' : Calculator) (inp : string)
    (out : list string) :
  store_ok (variables c) -> process_line c inp = Ok (c', out) ->
  store_ok (variables c').
Proof.
  intros Hok. unfold process_line, print_exn.
  destruct (is_empty inp); [intros [= <- _]; exact Hok|].
  destruct (is_number inp); [intros [= <- _]; exact Hok|].
  destruct (is_variable inp).
  { destruct (variables c !! _); intros [= <- _]; exact Hok. }
  destruct (is_assignment inp).
  { destruct (assign_valid _ _); simpl.
    - destruct (Py.split _) as [|x [|value [|? ?]]]; simpl; try discriminate.
      destruct (assign _ x value) as [vars'| |] eqn:Ea; simpl.
      + intros [= <- _]. simpl. exact (assign_store_ok _ _ _ _ Hok Ea).
      + destruct (exn_str e); [intros [= <- _]; exact Hok|discriminate].
      + discriminate.
    - destruct (exn_str e); [intros [= <- _]; exact Hok|discriminate].
    - discriminate. }
  destruct (is_command inp).
  { destruct (execute_cmd c inp) as [[c1 out1]|e|] eqn:Ec.
    - intros [= <- _]. rewrite (execute_cmd_variables _ _ _ _ Ec). exact Hok.
    - destruct e; try discriminate. simpl. intros [= <- _]. exact Hok.
    - discriminate. }
  destruct (check_expr inp) as [[]|e|].
  - destruct (to_postfix _); simpl; try discriminate.
    destruct (calculate_postfix _ _); simpl; try discriminate.
    intros [= <- _]. exact Hok.
  - destruct e; try discriminate. simpl. intros [= <- _]. exact Hok.
  - discriminate.
Qed.

End Store.

(** ** The properties of the specification *)

(** C8.  An assignment [x = y] copies the value that [y] holds at that
    moment: after it [x] holds that value, and it still does after [y] is
    assigned again, so the line [x] prints it.  The four lines [a = 4],
    [b = a], [a = 5], [b] print nothing for the assignments and then [4]. *)
Theorem C8_assignment_copies_value (c : Calculator) (x y v w : string) :
  Py.isalpha x = true -> Py.isalpha y = true -> x <> y ->
  variables c !! y = Some v -> is_number w = true ->
  (exists c1 c2,
      process_line c (x +:+ " = " +:+ y) = Ok (c1, [])
      /\ variables c1 !! x = Some v
      /\ process_line c1 (y +:+ " = " +:+ w) = Ok (c2, [])
      /\ variables c2 !! y = Some w
      /\ variables c2 !! x = Some v
      /\ process_line c2 x = Ok (c2, [v]))
  /\ (session ["a = 4"; "b = a"; "a = 5"]).1 = []
  /\ (session ["a = 4"; "b = a"; "a = 5"; "b"]).1 = ["4"].
Proof.
  intros Hx Hy Hne Hv Hw. split; [|split; reflexivity].
  destruct (assign_variable (variables c) x y v Hx Hy Hv) as [E1 E2].
  set (c1 := MkCalculator (run c) (<[x := v]> (variables c))).
  destruct (assign_number (variables c1) y w Hy Hw) as [E3 E4].
  set (c2 := MkCalculator (run c1) (<[y := w]> (variables c1))).
  assert (Hx2 : variables c2 !! x = Some v).
  { simpl. rewrite lookup_insert_ne by congruence.
    apply lookup_insert_eq. }
  exists c1, c2. repeat split.
  - rewrite (assignment_line c x y Hx (alpha_plain y Hy)).
    apply assignment_effect_ok; assumption.
  - apply lookup_insert_eq.
  - rewrite (assignment_line c1 y w Hy (number_plain w Hw)).
    apply assignment_effect_ok; assumption.
  - apply lookup_insert_eq.
  - exact Hx2.
  - rewrite (reference_line c2 x Hx), Hx2. reflexivity.
Qed.

Lemma C8_assignment_copies_value_witness :
  (Py.isalpha "b" = true /\ Py.isalpha "a" = true /\ "b" <> "a"
   /\ variables (MkCalculator true {["a" := "4"]}) !! "a" = Some "4"
   /\ is_number "5" = true)
  /\ (session ["a = 4"; "b = a"; "a = 5"; "b"]).1 = ["4"].
Proof.
  split.
  - repeat split; try reflexivity. discriminate.
  - apply (C8_assignment_copies_value
             (MkCalculator true {["a" := "4"]}) "b" "a" "4" "5");
      try reflexivity. discriminate.
Defined.

(** C10.  The store keeps the text of the right-hand side of an assignment
    as it was typed, and a line that is a variable prints the stored text
    as it is: after [x = 007] the line [x] prints [007], and [--5] is
    accepted as a value, stored and printed back unchanged. *)
Theorem C10_store_keeps_text (c : Calculator) (x value : string) :
  Py.isalpha x = true -> is_number value = true ->
  let c' := MkCalculator (run c) (<[x := value]> (variables c)) in
  process_line c (x +:+ " = " +:+ value) = Ok (c', [])
  /\ process_line c' x = Ok (c', [value])
  /\ (session ["x = 007"; "x"]).1 = ["007"]
  /\ assign_valid ∅ ["x"; "--5"] = Ok tt
  /\ assign ∅ "x" "--5" = Ok {["x" := "--5"]}
  /\ (session ["x = --5"; "x"]).1 = ["--5"].
Proof.
  intros Hx Hv c'.
  destruct (assign_number (variables c) x value Hx Hv) as [E1 E2].
  split; [|split; [|repeat split]].
  - rewrite (assignment_line c x value Hx (number_plain value Hv)).
    apply assignment_effect_ok; assumption.
  - rewrite (reference_line c' x Hx). simpl. rewrite lookup_insert_eq.
    reflexivity.
Qed.

Lemma C10_store_keeps_text_witness :
  (Py.isalpha "x" = true /\ is_number "007" = true)
  /\ process_line (MkCalculator true {["x" := "007"]}) "x"
     = Ok (MkCalculator true {["x" := "007"]}, ["007"]).
Proof.
  split; [split; reflexivity|].
  apply (C10_store_keeps_text init "x" "007"); reflexivity.
Defined.

(** Every line that is not handed to the expression pipeline is processed
    to the end: whatever goes wrong is printed and the loop goes on. *)
Lemma other_lines_return (c : Calculator) (inp : string) :
  is_expression_line inp = false ->
  exists eff, process_line c inp = Ok eff.
Proof.
  unfold is_expression_line, process_line.
  destruct (is_empty inp); [eauto|].
  destruct (is_number inp); [eauto|].
  destruct (is_variable inp).
  { destruct (variables c !! _); eauto. }
  destruct (is_assignment inp).
  { intros _.
    destruct (Py.split _) as [|x [|value [|? ?]]]; simpl; eauto.
    destruct (negb (Py.isalpha x)); simpl; eauto.
    unfold assign. destruct (is_number value); simpl; eauto.
    destruct (negb (Py.isalpha value)); simpl; eauto.
    destruct (variables c !! value) eqn:E; simpl.
    - try rewrite bool_decide_eq_true_2 by eauto. simpl.
      try rewrite E. eauto.
    - try rewrite bool_decide_eq_false_2 by (intros [? ?]; discriminate).
      simpl. eauto. }
  destruct (is_command inp); [|discriminate].
  intros _. unfold execute_cmd.
  destruct (String.eqb inp "/exit"); [eauto|].
  destruct (String.eqb inp "/help"); eauto.
Qed.

(** C1.  The claim is that every valid infix expression, converted by
    [to_postfix] and evaluated by [calculate_postfix], gives the value of
    the reference evaluation.  The program does not: for [(1+2-3)], whose
    reference value is 0, the conversion raises [IndexError], and the
    exception leaves [run_calc]. *)
Theorem C1_grouped_sum_raises :
  Reference.text_sum grouped_sum = "(1+2-3)"
  /\ Reference.value_sum ∅ grouped_sum = Some 0%Z
  /\ check_expr "(1+2-3)" = Ok tt
  /\ to_array "(1+2-3)" = ["("; "1"; "+"; "2"; "-"; "3"; ")"]
  /\ to_postfix ["("; "1"; "+"; "2"; "-"; "3"; ")"] = Raise IndexError
  /\ session ["(1+2-3)"] = ([], Uncaught IndexError).
Proof. repeat split. Qed.

(** C2.  The claim is that an incoming operator pops operators only while
    the top of the stack is not a left parenthesis, so that a parenthesis is
    removed only by its right parenthesis and never reaches the output.  The
    loop of the program does not test for the parenthesis: with [+] above
    [(] on the stack, the operator [-] pops both to the output, and the
    right parenthesis that follows finds the stack empty. *)
Theorem C2_operator_pops_parenthesis :
  pop_while "-" ["+"; "("] ["1"; "2"] = Ok ([], ["1"; "2"; "+"; "("])
  /\ to_postfix_loop ([], []) ["("; "1"; "+"; "2"; "-"]
     = Ok (["-"], ["1"; "2"; "+"; "("])
  /\ to_postfix ["("; "1"; "+"; "2"; "-"; "3"; ")"] = Raise IndexError
  /\ to_postfix ["("; "1"; "+"; "2"; "-"; "3"]
     = Ok ["1"; "2"; "+"; "("; "3"; "-"].
Proof. repeat split. Qed.

(** C3.  The claim is that the line [2 ^ 2 ^ 3] prints 64.  The tokenizer
    writes the operator as [**], which [precedence] does not know, so the
    second operator raises [KeyError] in [to_postfix] and the exception
    leaves [run_calc]; nothing is printed. *)
Theorem C3_power_tower_raises :
  Reference.text_sum power_tower = "2^2^3"
  /\ Reference.value_sum ∅ power_tower = Some 64%Z
  /\ to_array "2 ^ 2 ^ 3" = ["2"; "**"; "2"; "**"; "3"]
  /\ precedence !! "**" = None
  /\ to_postfix ["2"; "**"; "2"; "**"; "3"] = Raise KeyError
  /\ session ["2 ^ 2 ^ 3"] = ([], Uncaught KeyError).
Proof. repeat split. Qed.

(** C5.  The claim is that an unknown variable gives the message
    [Unknown variable] in three places.  It does when the name is a line of
    its own or the right-hand side of an assignment; as an operand of an
    expression, here [y + 1], the look-up raises [KeyError], which nothing
    catches, and the exception leaves [run_calc]. *)
Theorem C5_unknown_variable_in_expression (c : Calculator) (x y : string) :
  Py.isalpha x = true -> Py.isalpha y = true -> variables c !! y = None ->
  process_line c y = Ok (c, ["Unknown variable"])
  /\ process_line c (x +:+ " = " +:+ y) = Ok (c, ["Unknown variable"])
  /\ calculate_postfix (variables c) [y; "1"; "+"] = Raise KeyError
  /\ process_line c (y +:+ " + 1") = Raise KeyError
  /\ session ["y + 1"] = ([], Uncaught KeyError).
Proof.
  intros Hx Hy Hv.
  destruct (unknown_operand c y Hy Hv) as (_ & _ & Hcalc & Hline).
  split; [exact (unknown_reference c y Hy Hv)|].
  split; [exact (unknown_right_side c x y Hx Hy Hv)|].
  split; [exact Hcalc|]. split; [exact Hline|reflexivity].
Qed.

Lemma C5_unknown_variable_in_expression_witness :
  (Py.isalpha "x" = true /\ Py.isalpha "y" = true
   /\ variables init !! "y" = None)
  /\ process_line init "y + 1" = Raise KeyError.
Proof.
  split; [repeat split|].
  apply (C5_unknown_variable_in_expression init "x" "y"); reflexivity.
Defined.

(** C7.  The claim is that no line but [/exit] ends the session.  A line
    with an unknown variable in an expression does: the [KeyError] leaves
    [run_calc], and the line after it, which would print 1, is never
    read.  So do [1 +] and [1 / 0]. *)
Theorem C7_expression_error_ends_session :
  session ["1"] = (["1"], Uncaught EOFError)
  /\ session ["y + 1"; "1"] = ([], Uncaught KeyError)
  /\ session ["1 +"; "1"] = ([], Uncaught IndexError)
  /\ session ["1 / 0"; "1"] = ([], Uncaught ZeroDivisionError)
  /\ session ["/foo"; "/exit"; "1"] = (["Unknown command"; "Bye!"], Finished).
Proof. repeat split. Qed.

(** ** Sign folding *)

Lemma plus_minus_sign (run : string) :
  Py.all is_plus_minus run = true -> Py.all is_sign_char run = true.
Proof.
  apply all_impl. intros c. unfold is_plus_minus, is_sign_char.
  destruct (Py.char_eqb c "+"%char), (Py.char_eqb c "-"%char);
    simpl; intros; try discriminate; auto using orb_true_r.
Qed.

(** A run of one or more [+] and [-] characters that no character of the
    tokenizer's sign class ([+], [-] and also [|]) touches on either side
    becomes one operator token: [-] when the run has an odd number of [-],
    and [+] otherwise.  So the lines [3 --4] and [3 ---- 4] print 7, and
    [3 --- 4] prints -1. *)
Theorem sign_run_folds (pre run rest : string) :
  last_is_sign pre = false ->
  Py.nonempty run = true ->
  Py.all is_plus_minus run = true ->
  ends_run rest = true ->
  to_array (pre +:+ run +:+ rest)
  = to_array pre ++ sign_token run :: to_array rest
  /\ (forall c, process_line c "3 --4" = Ok (c, ["7"]))
  /\ (forall c, process_line c "3 --- 4" = Ok (c, ["-1"]))
  /\ (forall c, process_line c "3 ---- 4" = Ok (c, ["7"])).
Proof.
  intros Hpre Hne Hrun Hrest. split; [|repeat split].
  apply plus_minus_sign in Hrun.
  rewrite (to_array_cut (String.length pre) pre (run +:+ rest));
    [|lia|exact Hpre|].
  - rewrite (to_array_sign_run run rest Hne Hrun Hrest). reflexivity.
  - destruct run as [|c run]; [discriminate|].
    change (String c run +:+ rest) with (String c (run +:+ rest)).
    simpl in Hrun. apply andb_true_iff in Hrun as [Hc _]. exact Hc.
Qed.

Lemma sign_run_folds_witness :
  (last_is_sign "3 " = false /\ Py.nonempty "---" = true
   /\ Py.all is_plus_minus "---" = true /\ ends_run " 4" = true)
  /\ to_array ("3 " +:+ "---" +:+ " 4")
     = to_array "3 " ++ sign_token "---" :: to_array " 4".
Proof.
  split; [repeat split|].
  apply (sign_run_folds "3 " "---" " 4"); reflexivity.
Defined.

(** C4.  The claim is that signs fold, so that [3 - -4] gives 7,
    [3 --- 4] gives -1 and [3 ---- 4] gives 7.  The last two do.  In
    [3 - -4] a blank separates the two signs; the tokenizer tests
    [lstrip('-')] on one character at a time and so never joins a minus
    sign to the number after it, although [calculate_postfix] is written
    for such tokens.  The two signs stay two operators, the first of them
    finds a single value on the stack, and the [IndexError] leaves
    [run_calc]: nothing is printed and the next line is never read. *)
Theorem C4_spaced_signs_raise :
  to_array "3 - -4" = ["3"; "-"; "-"; "4"]
  /\ to_postfix ["3"; "-"; "-"; "4"] = Ok ["3"; "-"; "4"; "-"]
  /\ calculate_postfix ∅ ["3"; "-"; "4"; "-"] = Raise IndexError
  /\ process_line init "3 - -4" = Raise IndexError
  /\ session ["3 - -4"; "1"] = ([], Uncaught IndexError)
  /\ calculate_postfix ∅ ["3"; "-4"; "-"] = Ok 7%Z
  /\ process_line init "3 --- 4" = Ok (init, ["-1"])
  /\ process_line init "3 ---- 4" = Ok (init, ["7"]).
Proof. repeat split. Qed.

(** ** Validation *)

Lemma has_repeated_op_spec (expr : string) :
  has_repeated_op expr = true <-> adjacent_ops expr.
Proof.
  split.
  - induction expr as [|c rest IH]; [discriminate|]. simpl.
    intros [H|H]%orb_true_iff.
    + apply andb_true_iff in H as [Hc Hd].
      destruct rest as [|d post]; [discriminate|].
      exists "", c, d, post. auto.
    + destruct (IH H) as (pre & a & b & post & -> & Ha & Hb).
      exists (String c pre), a, b, post. auto.
  - intros (pre & a & b & post & -> & Ha & Hb).
    induction pre as [|c pre IH].
    + simpl. rewrite Ha, Hb. reflexivity.
    + change (String c pre +:+ String a (String b post))
        with (String c (pre +:+ String a (String b post))).
      simpl. simpl in IH. rewrite IH. apply orb_true_r.
Qed.

(** [check_expr] raises [ExpressionError] exactly when the numbers of left
    and right parentheses differ or two characters of [* / ^] stand next
    to each other, and returns otherwise; an expression line that fails
    the check prints [Invalid expression] before any tokenizing, and the
    state is kept.  So do the lines [(1+2] and [1 ** 2]. *)
Theorem check_expr_exact (expr : string) :
  (check_expr expr = Raise ExpressionError
   <-> (Py.count "("%char expr <> Py.count ")"%char expr
        \/ adjacent_ops expr))
  /\ (check_expr expr = Raise ExpressionError \/ check_expr expr = Ok tt)
  /\ (forall c, is_expression_line expr = true ->
        check_expr expr = Raise ExpressionError ->
        process_line c expr = Ok (c, ["Invalid expression"]))
  /\ (forall c, process_line c "(1+2" = Ok (c, ["Invalid expression"]))
  /\ (forall c, process_line c "1 ** 2" = Ok (c, ["Invalid expression"])).
Proof.
  split; [|split; [|split; [|repeat split]]].
  - unfold check_expr.
    destruct (Py.count "("%char expr =? Py.count ")"%char expr) eqn:E; simpl.
    + apply Nat.eqb_eq in E.
      destruct (has_repeated_op expr) eqn:R.
      * split; [|reflexivity]. intros _. right.
        apply has_repeated_op_spec, R.
      * split; [discriminate|]. intros [H|H]; [contradiction|].
        apply has_repeated_op_spec in H. congruence.
    + apply Nat.eqb_neq in E. split; auto.
  - unfold check_expr.
    destruct (negb _); [auto|]. destruct (has_repeated_op expr); auto.
  - intros c Hline Hcheck. unfold is_expression_line in Hline.
    repeat (apply andb_true_iff in Hline as [Hline ?]).
    unfold process_line.
    repeat match goal with
           | H : negb _ = true |- _ => apply negb_true_iff in H; rewrite H
           end.
    rewrite Hcheck. reflexivity.
Qed.

Lemma check_expr_exact_witness :
  is_expression_line "1 ** 2" = true
  /\ check_expr "1 ** 2" = Raise ExpressionError
  /\ process_line init "1 ** 2" = Ok (init, ["Invalid expression"]).
Proof.
  pose proof (check_expr_exact "1 ** 2") as (Hiff & _ & Hline & _).
  assert (Hcheck : check_expr "1 ** 2" = Raise ExpressionError).
  { apply Hiff. right. exists "1 ", "*"%char, "*"%char, " 2". repeat split. }
  split; [reflexivity|]. split; [exact Hcheck|].
  apply Hline; [reflexivity|exact Hcheck].
Defined.

(** C6.  The claim is that the lines [(1+2] and [1 * * 2] produce
    [ExpressionError].  The first does.  For the second, the documentation
    of [check_expr] asks for an exception when more than one of [* / ^]
    stand in a row, but the test looks for characters that touch: with a
    blank between the two stars the check returns, the second star finds a
    single value on the stack, and the [IndexError] leaves [run_calc]:
    nothing is printed and the next line is never read. *)
Theorem C6_spaced_stars_raise :
  process_line init "(1+2" = Ok (init, ["Invalid expression"])
  /\ process_line init "1 ** 2" = Ok (init, ["Invalid expression"])
  /\ check_expr "1 * * 2" = Ok tt
  /\ to_array "1 * * 2" = ["1"; "*"; "*"; "2"]
  /\ to_postfix ["1"; "*"; "*"; "2"] = Ok ["1"; "*"; "2"; "*"]
  /\ calculate_postfix ∅ ["1"; "*"; "2"; "*"] = Raise IndexError
  /\ process_line init "1 * * 2" = Raise IndexError
  /\ session ["1 * * 2"; "1"] = ([], Uncaught IndexError).
Proof. repeat split. Qed.

(** ** Operator application *)

Section Evaluation.

Lemma digit_value_nonneg (c : ascii) :
  Py.char_isdecimal c = true -> (0 <= digit_value c)%Z.
Proof.
  unfold Py.char_isdecimal, Py.between, digit_value.
  intros [H _]%andb_true_iff. apply N.leb_le in H. lia.
Qed.

Lemma decimal_value_nonneg (s : string) (acc : Z) :
  Py.all Py.char_isdecimal s = true -> (0 <= acc)%Z ->
  (0 <= decimal_value acc s)%Z.
Proof.
  revert acc. induction s as [|c s IH]; intros acc; simpl; [auto|].
  intros [Hc Hs]%andb_true_iff Hacc. apply IH; [exact Hs|].
  pose proof (digit_value_nonneg c Hc). lia.
Qed.

(** An operand that reads as an integer is some minus signs in front of a
    literal that is not negative. *)
Lemma denotes_inv (a : pyobj) (oa : operand) (x : Z) :
  read_operand a = Ok oa -> operand_value oa = Ok (PInt x) ->
  exists m, body oa = ANum (PInt m) /\ (0 <= m)%Z
            /\ x = if Nat.odd (minus oa) then (- m)%Z else m.
Proof.
  destruct a as [s|z|f]; simpl.
  - destruct (Py.isdigit _); [|discriminate].
    destruct (decimal_literal _) eqn:E; [|discriminate].
    intros [= <-]. unfold operand_value, with_signs. simpl.
    set (k := String.length s - _). set (m := decimal_value _ _).
    assert (0 <= m)%Z.
    { apply decimal_value_nonneg; [|lia]. unfold decimal_literal in E.
      apply andb_true_iff in E as [E _].
      apply andb_true_iff in E as [_ E]. exact E. }
    intros Hx. exists m. split; [reflexivity|]. split; [assumption|].
    destruct (Nat.odd k); simpl in Hx; congruence.
  - intros [= <-]. unfold operand_value, with_signs. simpl. intros Hx.
    exists (Z.abs z). split; [reflexivity|]. split; [lia|].
    destruct (z <? 0)%Z; simpl in *; congruence.
  - destruct f as [s|s| |s m e]; intros [= <-];
      unfold operand_value, with_signs; simpl; try discriminate;
      destruct s; simpl; discriminate.
Qed.

Lemma truediv_not_int (x y z : Z) :
  Num.truediv (PInt x) (PInt y) <> Ok (PInt z).
Proof.
  unfold Num.truediv. destruct (y =? 0)%Z; [discriminate|].
  destruct (Num.is_finite _); discriminate.
Qed.

(** An operator token applied to two operands that read as integers. *)
Lemma calculate_step_operator (vars : gmap string string) (a b : pyobj)
    (oa ob : operand) (x y : Z) (rest : list pyobj) (el : string) :
  read_operand a = Ok oa -> operand_value oa = Ok (PInt x) ->
  read_operand b = Ok ob -> operand_value ob = Ok (PInt y) ->
  is_operator el = true ->
  calculate_step vars (b :: a :: rest) el
  = (r ← int_op el oa x y; Ok (r :: rest)).
Proof.
  intros Ea Va Eb Vb Hel. unfold calculate_step, int_op.
  assert (is_number el = false) as ->.
  { unfold is_operator in Hel.
    repeat (apply orb_true_iff in Hel as [Hel|Hel]);
      apply String.eqb_eq in Hel; subst el; reflexivity. }
  assert (Py.isalpha el = false) as ->.
  { unfold is_operator in Hel.
    repeat (apply orb_true_iff in Hel as [Hel|Hel]);
      apply String.eqb_eq in Hel; subst el; reflexivity. }
  unfold py_eval. rewrite Ea, Eb, Hel. simpl.
  rewrite Vb. destruct (String.eqb el "**"); [reflexivity|].
  rewrite Va. reflexivity.
Qed.

End Evaluation.

(** C9 (as amended).  An operator token pops the right operand [b], then
    the left operand [a], and pushes the value that Python gives the text
    [a el b].  When both operands read as integers [x] and [y], this is the
    exact integer [x + y], [x - y] or [x * y], and [x ^ y] for a positive
    [x] and a [y] that is not negative; for [/] it is the true quotient, a
    floating-point number and never an integer object.  Only the final
    result is truncated to an integer: [10 / 4 * 2] is 2.5 * 2 and gives 5,
    not 4. *)
Theorem C9_operator_application (vars : gmap string string)
    (a b : pyobj) (x y : Z) (rest : list pyobj) :
  denotes a x -> denotes b y ->
  calculate_step vars (b :: a :: rest) "+" = Ok (PInt (x + y) :: rest)
  /\ calculate_step vars (b :: a :: rest) "-" = Ok (PInt (x - y) :: rest)
  /\ calculate_step vars (b :: a :: rest) "*" = Ok (PInt (x * y) :: rest)
  /\ ((0 < x)%Z -> (0 <= y)%Z ->
      calculate_step vars (b :: a :: rest) "**" = Ok (PInt (x ^ y) :: rest))
  /\ calculate_step vars (b :: a :: rest) "/"
     = (r ← Num.truediv (PInt x) (PInt y); Ok (r :: rest))
  /\ (forall z, Num.truediv (PInt x) (PInt y) <> Ok (PInt z))
  /\ calculate_loop vars [] ["10"; "4"; "/"] = Ok [PFloat two_and_a_half]
  /\ calculate_postfix vars ["10"; "4"; "/"; "2"; "*"] = Ok 5%Z.
Proof.
  intros (oa & Ea & Va) (ob & Eb & Vb).
  pose proof (fun el => calculate_step_operator vars a b oa ob x y rest el
                          Ea Va Eb Vb) as Hstep.
  unfold int_op in Hstep.
  repeat split; try (rewrite Hstep by reflexivity; reflexivity).
  - intros Hx Hy. rewrite Hstep by reflexivity. simpl.
    destruct (denotes_inv a oa x Ea Va) as (m & Hbody & Hm & Hxm).
    rewrite Hbody. simpl. unfold with_signs.
    destruct (Nat.odd (minus oa)); [lia|]. subst m.
    destruct (0 <=? y)%Z eqn:E; [reflexivity|]. apply Z.leb_gt in E. lia.
  - apply truediv_not_int.
Qed.

Lemma C9_operator_application_witness :
  (denotes (PStr "10") 10 /\ denotes (PStr "4") 4)
  /\ calculate_step ∅ [PStr "4"; PStr "10"] "-" = Ok [PInt (10 - 4)].
Proof.
  assert (H10 : denotes (PStr "10") 10).
  { exists (Operand 0 (ANum (PInt 10))). split; reflexivity. }
  assert (H4 : denotes (PStr "4") 4).
  { exists (Operand 0 (ANum (PInt 4))). split; reflexivity. }
  split; [split; assumption|].
  apply (C9_operator_application ∅ (PStr "10") (PStr "4") 10 4 [] H10 H4).
Defined.

(** C9, as stated, fails: the division of [10 / 4 * 2] pushes the
    floating-point number 2.5, not the integer 2 of integer arithmetic, and
    the line gives 5 where integer arithmetic gives 4. *)
Lemma C9_division_counterexample :
  calculate_step ∅ [PStr "4"; PStr "10"] "/" = Ok [PFloat two_and_a_half]
  /\ Reference.apply "/" 10 4 = Some 2%Z
  /\ calculate_step ∅ [PStr "4"; PStr "10"] "/" <> Ok [PInt 2]
  /\ (r ← Reference.apply "/" 10 4; Reference.apply "*" r 2) = Some 4%Z
  /\ calculate_postfix ∅ ["10"; "4"; "/"; "2"; "*"] = Ok 5%Z
  /\ process_line init "10 / 4 * 2" = Ok (init, ["5"]).
Proof. repeat split. discriminate. Qed.

(** ** The pipeline on expressions without parentheses *)

Section Flat_expressions.

Import Flat.

Lemma decimal_literal_inv (d : string) :
  decimal_literal d = true ->
  Py.lstrip "-"%char d = d /\ Py.isdigit d = true
  /\ Py.all Py.char_isdecimal d = true /\ Py.isalpha d = false.
Proof.
  unfold decimal_literal. intros [[Hne Hall]%andb_true_iff _]%andb_true_iff.
  destruct d as [|c d]; [discriminate|]. simpl in Hall.
  pose proof Hall as [Hc Hd]%andb_true_iff.
  assert (Hdigit : forall e, Py.char_isdecimal e = true ->
                             Py.char_isdigit e = true).
  { intros e He. unfold Py.char_isdigit. unfold Py.char_isdecimal in He.
    rewrite He. reflexivity. }
  repeat split.
  - simpl. destruct (Py.char_eqb c "-"%char) eqn:E; [|reflexivity].
    apply char_eqb_eq in E. subst c. discriminate.
  - unfold Py.isdigit. simpl. rewrite (Hdigit c Hc). simpl.
    eapply all_impl; [|exact Hd]. exact Hdigit.
  - simpl. exact Hall.
  - unfold Py.isalpha. simpl.
    destruct (Py.char_isalpha c) eqn:E; [|reflexivity].
    apply alpha_not_digit in E. rewrite (Hdigit c Hc) in E. discriminate.
Qed.

Lemma to_postfix_loop_app (st : conv_state) (l1 l2 : list string) :
  to_postfix_loop st (l1 ++ l2)
  = (st' ← to_postfix_loop st l1; to_postfix_loop st' l2).
Proof.
  revert st. induction l1 as [|el l1 IH]; intros st; [reflexivity|].
  simpl. destruct (to_postfix_step st el); simpl; auto.
Qed.

Lemma step_literal (stack postfix : list string) (d : string) :
  decimal_literal d = true ->
  to_postfix_step (stack, postfix) d = Ok (stack, postfix ++ [d]).
Proof.
  intros (_ & Hd & _)%decimal_literal_inv. unfold to_postfix_step.
  rewrite Hd. reflexivity.
Qed.

(** A multiplication sign after a product: the pending multiplication, if
    any, goes to the output and the new one is held. *)
Lemma step_times (t : product) (stack postfix : list string) :
  low stack = true ->
  to_postfix_step (pend_term t ++ stack, postfix) "*"
  = Ok ("*" :: stack, postfix ++ pend_term t).
Proof.
  intros Hlow. destruct t as [d|t d]; simpl.
  - rewrite app_nil_r. destruct stack as [|top stack]; [reflexivity|].
    simpl in Hlow. unfold to_postfix_step.
    apply orb_true_iff in Hlow as [E|E]; apply String.eqb_eq in E; subst top;
      reflexivity.
  - unfold to_postfix_step. simpl.
    destruct stack as [|top stack]; [reflexivity|].
    simpl in Hlow.
    apply orb_true_iff in Hlow as [E|E]; apply String.eqb_eq in E; subst top;
      reflexivity.
Qed.

Lemma convert_term (t : product) (stack postfix : list string) :
  wf_term t = true -> low stack = true ->
  to_postfix_loop (stack, postfix) (tokens_term t)
  = Ok (pend_term t ++ stack, postfix ++ emit_term t).
Proof.
  revert postfix. induction t as [d|t IH d]; intros postfix Hwf Hlow.
  - cbn [tokens_term to_postfix_loop pend_term emit_term app].
    rewrite (step_literal _ _ d Hwf). reflexivity.
  - simpl in Hwf. apply andb_true_iff in Hwf as [Ht Hd].
    cbn [tokens_term]. rewrite to_postfix_loop_app, (IH _ Ht Hlow).
    cbn [mbind result_bind to_postfix_loop].
    rewrite (step_times t stack _ Hlow). cbn [mbind result_bind].
    rewrite (step_literal _ _ d Hd). cbn [mbind result_bind].
    cbn [emit_term pend_term app]. rewrite <- !app_assoc. reflexivity.
Qed.

Lemma pop_while_all (el : string) (stack postfix : list string) :
  String.eqb el "+" || String.eqb el "-" = true ->
  forallb is_held stack = true ->
  pop_while el stack postfix = Ok ([], postfix ++ stack).
Proof.
  intros Hel. revert postfix.
  induction stack as [|top stack IH]; intros postfix Hall.
  - simpl. rewrite app_nil_r. reflexivity.
  - simpl in Hall. apply andb_true_iff in Hall as [Htop Hall].
    cbn [pop_while].
    assert (precedence !! el = Some 1) as ->.
    { apply orb_true_iff in Hel as [E|E]; apply String.eqb_eq in E; subst el;
        reflexivity. }
    assert (exists pt, precedence !! top = Some pt /\ (1 <=? pt) = true)
      as (pt & -> & ->).
    { unfold is_held in Htop.
      repeat (apply orb_true_iff in Htop as [Htop|Htop]);
        apply String.eqb_eq in Htop; subst top; eexists; split; reflexivity. }
    rewrite (IH _ Hall), <- app_assoc. reflexivity.
Qed.

(** A plus or minus sign after a chain: everything held goes to the output
    and the sign is held. *)
Lemma step_sign (el : string) (stack postfix : list string) :
  String.eqb el "+" || String.eqb el "-" = true ->
  forallb is_held stack = true ->
  to_postfix_step (stack, postfix) el = Ok ([el], postfix ++ stack).
Proof.
  intros Hel Hall. unfold to_postfix_step.
  assert (Py.isdigit el || Py.isalpha el = false) as ->
    by (apply orb_true_iff in Hel as [E|E]; apply String.eqb_eq in E;
        subst el; reflexivity).
  assert (String.eqb el "(" = false) as ->
    by (apply orb_true_iff in Hel as [E|E]; apply String.eqb_eq in E;
        subst el; reflexivity).
  assert (String.eqb el ")" = false) as ->
    by (apply orb_true_iff in Hel as [E|E]; apply String.eqb_eq in E;
        subst el; reflexivity).
  destruct stack as [|top stack]; [rewrite app_nil_r; reflexivity|].
  rewrite (pop_while_all el (top :: stack) postfix Hel Hall).
  simpl in Hall. apply andb_true_iff in Hall as [Htop _].
  assert (precedence !! el = Some 1) as ->.
  { apply orb_true_iff in Hel as [E|E]; apply String.eqb_eq in E; subst el;
      reflexivity. }
  unfold is_held in Htop.
  repeat (apply orb_true_iff in Htop as [Htop|Htop]);
    apply String.eqb_eq in Htop; subst top; reflexivity.
Qed.

Lemma pend_held (s : chain) : forallb is_held (pend s) = true.
Proof. destruct s as [[]|? []|? []]; reflexivity. Qed.

Lemma convert_sum (s : chain) (postfix : list string) :
  wf s = true ->
  to_postfix_loop ([], postfix) (tokens s) = Ok (pend s, postfix ++ emit s).
Proof.
  revert postfix. induction s as [t|s IH t|s IH t]; intros postfix Hwf.
  - simpl. rewrite (convert_term t [] postfix Hwf eq_refl), app_nil_r.
    reflexivity.
  - simpl in Hwf. apply andb_true_iff in Hwf as [Hs Ht].
    cbn [tokens]. rewrite to_postfix_loop_app, (IH _ Hs).
    cbn [mbind result_bind to_postfix_loop].
    rewrite (step_sign "+" _ _ eq_refl (pend_held s)).
    cbn [mbind result_bind].
    rewrite (convert_term t ["+"] _ Ht eq_refl).
    cbn [emit pend]. rewrite <- !app_assoc. reflexivity.
  - simpl in Hwf. apply andb_true_iff in Hwf as [Hs Ht].
    cbn [tokens]. rewrite to_postfix_loop_app, (IH _ Hs).
    cbn [mbind result_bind to_postfix_loop].
    rewrite (step_sign "-" _ _ eq_refl (pend_held s)).
    cbn [mbind result_bind].
    rewrite (convert_term t ["-"] _ Ht eq_refl).
    cbn [emit pend]. rewrite <- !app_assoc. reflexivity.
Qed.

Lemma emit_pend_term (t : product) : emit_term t ++ pend_term t = post_term t.
Proof.
  induction t as [d|t IH d]; [reflexivity|].
  cbn [emit_term pend_term post_term]. rewrite <- IH, <- !app_assoc.
  reflexivity.
Qed.

Lemma emit_pend (s : chain) : emit s ++ pend s = post s.
Proof.
  induction s as [t|s IH t|s IH t]; cbn [emit pend post].
  - apply emit_pend_term.
  - rewrite <- IH, <- emit_pend_term, <- !app_assoc. reflexivity.
  - rewrite <- IH, <- emit_pend_term, <- !app_assoc. reflexivity.
Qed.

(** [to_postfix] gives the postfix form. *)
Lemma to_postfix_flat (s : chain) :
  wf s = true -> to_postfix (tokens s) = Ok (post s).
Proof.
  intros Hwf. unfold to_postfix. rewrite (convert_sum s [] Hwf).
  cbn [mbind result_bind app]. rewrite emit_pend. reflexivity.
Qed.

Lemma holds_literal (d : string) :
  decimal_literal d = true -> holds (PStr d) (decimal_value 0 d).
Proof.
  intros Hd. destruct (decimal_literal_inv d Hd) as (Hs & Hdigit & Hdec & _).
  split.
  - exists (Operand 0 (ANum (PInt (decimal_value 0 d)))). split; [|reflexivity].
    simpl. rewrite Hs, Hdigit, Hd, Nat.sub_diag. reflexivity.
  - simpl. rewrite Hs, Hdigit, Hdec, Nat.sub_diag. reflexivity.
Qed.

Lemma holds_int (z : Z) : holds (PInt z) z.
Proof.
  split; [|reflexivity].
  exists (Operand (if (z <? 0)%Z then 1 else 0) (ANum (PInt (Z.abs z)))).
  split; [reflexivity|]. unfold operand_value, with_signs. simpl.
  destruct (z <? 0)%Z eqn:E; simpl; f_equal; f_equal.
  - apply Z.ltb_lt in E. lia.
  - apply Z.ltb_ge in E. lia.
Qed.

Lemma calculate_loop_app (vars : gmap string string) (stack : list pyobj)
    (l1 l2 : list string) :
  calculate_loop vars stack (l1 ++ l2)
  = (stack' ← calculate_loop vars stack l1; calculate_loop vars stack' l2).
Proof.
  revert stack. induction l1 as [|el l1 IH]; intros stack; [reflexivity|].
  simpl. destruct (calculate_step vars stack el); simpl; auto.
Qed.

Lemma push_literal (vars : gmap string string) (stack : list pyobj)
    (d : string) :
  decimal_literal d = true ->
  calculate_step vars stack d = Ok (PStr d :: stack).
Proof.
  intros (Hs & Hdigit & _)%decimal_literal_inv. unfold calculate_step.
  unfold is_number. rewrite Hs, Hdigit. reflexivity.
Qed.

Lemma apply_operator (vars : gmap string string) (a b : pyobj) (x y : Z)
    (rest : list pyobj) :
  holds a x -> holds b y ->
  calculate_step vars (b :: a :: rest) "+" = Ok (PInt (x + y) :: rest)
  /\ calculate_step vars (b :: a :: rest) "-" = Ok (PInt (x - y) :: rest)
  /\ calculate_step vars (b :: a :: rest) "*" = Ok (PInt (x * y) :: rest).
Proof.
  intros [(oa & Ea & Va) _] [(ob & Eb & Vb) _].
  repeat split;
    rewrite (calculate_step_operator vars a b oa ob x y rest _ Ea Va Eb Vb)
      by reflexivity; reflexivity.
Qed.

Lemma evaluate_term (vars : gmap string string) (t : product)
    (stack : list pyobj) :
  wf_term t = true ->
  exists o, holds o (value_term t)
            /\ calculate_loop vars stack (post_term t) = Ok (o :: stack).
Proof.
  induction t as [d|t IH d]; intros Hwf.
  - exists (PStr d). split; [exact (holds_literal d Hwf)|].
    cbn [post_term calculate_loop]. rewrite (push_literal vars stack d Hwf).
    reflexivity.
  - simpl in Hwf. apply andb_true_iff in Hwf as [Ht Hd].
    destruct (IH Ht) as (o & Ho & Eo).
    exists (PInt (value_term t * decimal_value 0 d)).
    split; [apply holds_int|].
    cbn [post_term]. rewrite calculate_loop_app, Eo.
    cbn [mbind result_bind calculate_loop].
    rewrite (push_literal vars _ d Hd). cbn [mbind result_bind].
    destruct (apply_operator vars o (PStr d) _ _ stack Ho (holds_literal d Hd))
      as (_ & _ & ->).
    reflexivity.
Qed.

Lemma evaluate_sum (vars : gmap string string) (s : chain) :
  wf s = true ->
  exists o, holds o (value s)
            /\ calculate_loop vars [] (post s) = Ok [o].
Proof.
  induction s as [t|s IH t|s IH t]; intros Hwf.
  - exact (evaluate_term vars t [] Hwf).
  - simpl in Hwf. apply andb_true_iff in Hwf as [Hs Ht].
    destruct (IH Hs) as (a & Ha & Ea).
    destruct (evaluate_term vars t [a] Ht) as (b & Hb & Eb).
    exists (PInt (value s + value_term t)). split; [apply holds_int|].
    cbn [post]. rewrite calculate_loop_app, Ea. cbn [mbind result_bind].
    rewrite calculate_loop_app, Eb. cbn [mbind result_bind calculate_loop].
    destruct (apply_operator vars a b _ _ [] Ha Hb) as (-> & _ & _).
    reflexivity.
  - simpl in Hwf. apply andb_true_iff in Hwf as [Hs Ht].
    destruct (IH Hs) as (a & Ha & Ea).
    destruct (evaluate_term vars t [a] Ht) as (b & Hb & Eb).
    exists (PInt (value s - value_term t)). split; [apply holds_int|].
    cbn [post]. rewrite calculate_loop_app, Ea. cbn [mbind result_bind].
    rewrite calculate_loop_app, Eb. cbn [mbind result_bind calculate_loop].
    destruct (apply_operator vars a b _ _ [] Ha Hb) as (_ & -> & _).
    reflexivity.
Qed.

Lemma reference_term (t : product) :
  wf_term t = true ->
  Reference.value_term ∅ (ref_term t) = Some (value_term t).
Proof.
  assert (Hlit : forall d, decimal_literal d = true ->
            Z.of_N (Z.to_N (decimal_value 0 d)) = decimal_value 0 d).
  { intros d (_ & _ & Hdec & _)%decimal_literal_inv.
    pose proof (decimal_value_nonneg d 0 Hdec). lia. }
  induction t as [d|t IH d]; intros Hwf.
  - simpl. rewrite (Hlit d Hwf). reflexivity.
  - simpl in Hwf. apply andb_true_iff in Hwf as [Ht Hd].
    simpl. rewrite (IH Ht). simpl. rewrite (Hlit d Hd). reflexivity.
Qed.

Lemma reference_sum (s : chain) :
  wf s = true -> Reference.value_sum ∅ (ref_sum s) = Some (value s).
Proof.
  induction s as [t|s IH t|s IH t]; intros Hwf.
  - exact (reference_term t Hwf).
  - simpl in Hwf. apply andb_true_iff in Hwf as [Hs Ht].
    simpl. rewrite (IH Hs). simpl. rewrite (reference_term t Ht). reflexivity.
  - simpl in Hwf. apply andb_true_iff in Hwf as [Hs Ht].
    simpl. rewrite (IH Hs). simpl. rewrite (reference_term t Ht). reflexivity.
Qed.

(** On sums, differences and products of literals without parentheses the
    pipeline gives the value of the reference evaluation. *)
Theorem flat_pipeline_agrees (vars : gmap string string) (s : chain) :
  wf s = true ->
  Reference.value_sum ∅ (ref_sum s) = Some (value s)
  /\ (postfix ← to_postfix (tokens s); calculate_postfix vars postfix)
     = Ok (value s).
Proof.
  intros Hwf. split; [exact (reference_sum s Hwf)|].
  rewrite (to_postfix_flat s Hwf). cbn [mbind result_bind].
  destruct (evaluate_sum vars s Hwf) as (o & [_ Ho] & Eo).
  unfold calculate_postfix. rewrite Eo. exact Ho.
Qed.

Lemma flat_pipeline_agrees_witness :
  let s := Minus (Plus (Single (Literal "2")) (Times (Literal "3") "4"))
                 (Literal "5") in
  wf s = true
  /\ (postfix ← to_postfix ["2"; "+"; "3"; "*"; "4"; "-"; "5"];
      calculate_postfix ∅ postfix) = Ok 9%Z.
Proof.
  split; [reflexivity|].
  apply (flat_pipeline_agrees ∅
    (Minus (Plus (Single (Literal "2")) (Times (Literal "3") "4"))
           (Literal "5"))).
  reflexivity.
Defined.

End Flat_expressions.

(** ** Further properties of [to_postfix] *)

Section Conversion.

Lemma pop_to_paren_inv (stack postfix stack' postfix' : list string) :
  pop_to_paren stack postfix = Ok (stack', postfix') ->
  exists above,
    stack = above ++ "(" :: stack' /\ postfix' = postfix ++ above
    /\ ~ In "(" above.
Proof.
  revert postfix. induction stack as [|top stack IH]; intros postfix;
    [discriminate|].
  cbn [pop_to_paren]. destruct (String.eqb top "(") eqn:E.
  - apply String.eqb_eq in E. subst top. intros [= <- <-].
    exists []. rewrite !app_nil_r. auto.
  - intros H. destruct (IH _ H) as (above & -> & -> & Hnot).
    exists (top :: above). rewrite <- app_assoc. repeat split.
    intros [->|Hin]; [|contradiction].
    rewrite String.eqb_refl in E. discriminate.
Qed.

Lemma pop_while_inv (el : string) (stack postfix stack' postfix' : list string) :
  pop_while el stack postfix = Ok (stack', postfix') ->
  exists popped, stack = popped ++ stack' /\ postfix' = postfix ++ popped.
Proof.
  revert postfix. induction stack as [|top stack IH]; intros postfix.
  - intros [= <- <-]. exists []. rewrite !app_nil_r. auto.
  - cbn [pop_while].
    destruct (precedence !! el) as [pe|]; [|discriminate].
    destruct (precedence !! top) as [pt|]; [|discriminate].
    destruct (pe <=? pt).
    + intros H. destruct (IH _ H) as (popped & -> & ->).
      exists (top :: popped). rewrite <- app_assoc. auto.
    + intros [= <- <-]. exists []. rewrite !app_nil_r. auto.
Qed.

(** What one turn of the loop can do to the stack and the output. *)
Lemma to_postfix_step_inv (stack postfix stack' postfix' : list string)
    (el : string) :
  to_postfix_step (stack, postfix) el = Ok (stack', postfix') ->
  (is_operand_token el = true /\ stack' = stack /\ postfix' = postfix ++ [el])
  \/ (is_operand_token el = false /\ el = ")"
      /\ exists above, stack = above ++ "(" :: stack'
                       /\ postfix' = postfix ++ above)
  \/ (is_operand_token el = false /\ el <> ")"
      /\ exists popped rest, stack = popped ++ rest /\ stack' = el :: rest
                             /\ postfix' = postfix ++ popped).
Proof.
  intros H. unfold to_postfix_step in H. fold (is_operand_token el) in H.
  destruct (is_operand_token el) eqn:Eop.
  { injection H as <- <-. left. auto. }
  right. destruct (String.eqb el "(") eqn:El.
  { apply String.eqb_eq in El. subst el. injection H as <- <-. right.
    split; [reflexivity|]. split; [discriminate|].
    exists [], stack. rewrite !app_nil_r. auto. }
  destruct (String.eqb el ")") eqn:Er.
  { apply String.eqb_eq in Er. subst el. left.
    destruct (pop_to_paren_inv _ _ _ _ H) as (above & -> & -> & _). eauto. }
  apply String.eqb_neq in Er. right.
  split; [reflexivity|]. split; [exact Er|].
  destruct stack as [|top stack].
  { injection H as <- <-. exists [], []. rewrite !app_nil_r. auto. }
  destruct (String.eqb top "(").
  { injection H as <- <-. exists [], (top :: stack). rewrite !app_nil_r.
    auto. }
  destruct (precedence !! el) as [pe|]; [|discriminate].
  destruct (precedence !! top) as [pt|]; [|discriminate].
  destruct (pt <? pe).
  { injection H as <- <-. exists [], (top :: stack). rewrite !app_nil_r.
    auto. }
  destruct (pop_while el (top :: stack) postfix) as [[st po]| |] eqn:Ew;
    try discriminate.
  cbn in H. injection H as <- <-.
  destruct (pop_while_inv _ _ _ _ _ Ew) as (popped & -> & ->). eauto.
Qed.

Lemma operand_not_closing (el : string) :
  is_operand_token el = true -> el <> ")".
Proof. intros H ->. discriminate. Qed.

Lemma count_closing_app (l1 l2 : list string) :
  count_closing (l1 ++ l2) = count_closing l1 + count_closing l2.
Proof. unfold count_closing. rewrite List.filter_app, List.length_app. reflexivity. Qed.

Lemma count_closing_other (el : string) :
  el <> ")" -> count_closing [el] = 0.
Proof.
  intros H. unfold count_closing. cbn [List.filter].
  destruct (String.eqb ")" el) eqn:E; [|reflexivity].
  apply String.eqb_eq in E. congruence.
Qed.

(** What the loop keeps: no operand is ever on the stack and the operands
    reach the output in the order of the input; no right parenthesis is
    kept; every token is either kept or is a right parenthesis that took a
    left one with it. *)
Lemma to_postfix_loop_inv (infix stack postfix stack' postfix' : list string) :
  to_postfix_loop (stack, postfix) infix = Ok (stack', postfix') ->
  (List.filter is_operand_token stack = [] ->
   List.filter is_operand_token stack' = []
   /\ List.filter is_operand_token postfix'
      = List.filter is_operand_token postfix
        ++ List.filter is_operand_token infix)
  /\ (~ In ")" stack -> ~ In ")" postfix ->
      ~ In ")" stack' /\ ~ In ")" postfix')
  /\ length postfix' + length stack' + 2 * count_closing infix
     = length postfix + length stack + length infix.
Proof.
  revert stack postfix.
  induction infix as [|el infix IH]; intros stack postfix.
  { intros [= <- <-]. rewrite app_nil_r. unfold count_closing. simpl.
    repeat split; auto; lia. }
  cbn [to_postfix_loop].
  destruct (to_postfix_step (stack, postfix) el) as [[st po]| |] eqn:Es;
    try discriminate.
  cbn [mbind result_bind]. intros H.
  destruct (IH _ _ H) as (Hop & Hcl & Hlen). clear IH H.
  change (el :: infix) with ([el] ++ infix).
  rewrite count_closing_app, List.filter_app.
  destruct (to_postfix_step_inv _ _ _ _ _ Es)
    as [(Eop & -> & ->)|[(Eop & -> & above & -> & ->)
                        |(Eop & Ene & popped & rest & -> & -> & ->)]].
  - split; [|split].
    + intros Hst. destruct (Hop Hst) as [H1 H2]. split; [exact H1|].
      rewrite H2, List.filter_app, <- app_assoc. reflexivity.
    + intros Hs Hp. apply Hcl; [exact Hs|].
      rewrite in_app_iff. intros [Hin|[Hin|[]]]; [auto|].
      apply (operand_not_closing el Eop). auto.
    + rewrite (count_closing_other el (operand_not_closing el Eop)).
      rewrite List.length_app in Hlen. simpl in *. lia.
  - split; [|split].
    + intros Hst. rewrite List.filter_app in Hst.
      apply app_eq_nil in Hst as [Ha Hb]. simpl in Hb.
      destruct (Hop Hb) as [H1 H2]. split; [exact H1|].
      rewrite H2, List.filter_app, Ha. simpl.
      rewrite app_nil_r. reflexivity.
    + intros Hs Hp. apply Hcl.
      * intros Hin. apply Hs. rewrite in_app_iff. right. right. exact Hin.
      * rewrite in_app_iff. intros [Hin|Hin]; [auto|].
        apply Hs. rewrite in_app_iff. left. exact Hin.
    + change (count_closing [")"]) with 1.
      rewrite !List.length_app in *. simpl in *. lia.
  - split; [|split].
    + intros Hst. rewrite List.filter_app in Hst.
      apply app_eq_nil in Hst as [Ha Hb].
      assert (Hst' : List.filter is_operand_token (el :: rest) = []).
      { simpl. rewrite Eop. exact Hb. }
      destruct (Hop Hst') as [H1 H2]. split; [exact H1|].
      rewrite H2, List.filter_app, Ha. simpl. rewrite Eop, app_nil_r.
      reflexivity.
    + intros Hs Hp. apply Hcl.
      * intros [Hin|Hin]; [congruence|].
        apply Hs. rewrite in_app_iff. right. exact Hin.
      * rewrite in_app_iff. intros [Hin|Hin]; [auto|].
        apply Hs. rewrite in_app_iff. left. exact Hin.
    + rewrite (count_closing_other el Ene).
      rewrite !List.length_app in *. simpl in *. lia.
Qed.

Lemma to_postfix_inv (infix out : list string) :
  to_postfix infix = Ok out ->
  exists stack postfix,
    to_postfix_loop ([], []) infix = Ok (stack, postfix)
    /\ out = postfix ++ stack.
Proof.
  unfold to_postfix.
  destruct (to_postfix_loop ([], []) infix) as [[stack postfix]| |];
    try discriminate.
  cbn. intros [= <-]. eauto.
Qed.

End Conversion.

(** The operands keep their order: in the postfix form the numbers and
    names appear exactly as in the input, with the other tokens moved. *)
Theorem to_postfix_keeps_operand_order (infix out : list string) :
  to_postfix infix = Ok out ->
  List.filter is_operand_token out = List.filter is_operand_token infix.
Proof.
  intros (stack & postfix & Hloop & ->)%to_postfix_inv.
  destruct (to_postfix_loop_inv _ _ _ _ _ Hloop) as (Hop & _ & _).
  destruct (Hop eq_refl) as [Hs Hp].
  rewrite List.filter_app, Hs, Hp, app_nil_r. reflexivity.
Qed.

Lemma to_postfix_keeps_operand_order_witness :
  to_postfix ["a"; "+"; "2"; "*"; "b"] = Ok ["a"; "2"; "b"; "*"; "+"]
  /\ List.filter is_operand_token ["a"; "2"; "b"; "*"; "+"]
     = List.filter is_operand_token ["a"; "+"; "2"; "*"; "b"].
Proof.
  split; [reflexivity|].
  apply (to_postfix_keeps_operand_order ["a"; "+"; "2"; "*"; "b"]).
  reflexivity.
Defined.

(** A right parenthesis never reaches the postfix form, whatever the
    input. *)
Theorem to_postfix_drops_closing (infix out : list string) :
  to_postfix infix = Ok out -> ~ In ")" out.
Proof.
  intros (stack & postfix & Hloop & ->)%to_postfix_inv.
  destruct (to_postfix_loop_inv _ _ _ _ _ Hloop) as (_ & Hcl & _).
  destruct Hcl as [Hs Hp]; [intros []|intros []|].
  rewrite in_app_iff. tauto.
Qed.

Lemma to_postfix_drops_closing_witness :
  to_postfix ["8"; "*"; "("; "3"; "+"; "2"; ")"]
  = Ok ["8"; "3"; "2"; "+"; "*"]
  /\ ~ In ")" ["8"; "3"; "2"; "+"; "*"].
Proof.
  split; [reflexivity|].
  apply (to_postfix_drops_closing ["8"; "*"; "("; "3"; "+"; "2"; ")"]).
  reflexivity.
Defined.

Section Token_counts.

Local Abbreviation occ := (count_occ String.string_dec).

(** How often a token occurs in the output, on the stack and among the
    parentheses that have been dropped in pairs, and how often it occurred
    before. *)
Lemma to_postfix_loop_occ (infix stack postfix stack' postfix' : list string)
    (x : string) :
  to_postfix_loop (stack, postfix) infix = Ok (stack', postfix') ->
  occ postfix' x + occ stack' x
  + occ (List.repeat ")" (count_closing infix)) x
  + occ (List.repeat "(" (count_closing infix)) x
  = occ postfix x + occ stack x + occ infix x.
Proof.
  revert stack postfix.
  induction infix as [|el infix IH]; intros stack postfix.
  { intros [= <- <-]. unfold count_closing. simpl. lia. }
  cbn [to_postfix_loop].
  destruct (to_postfix_step (stack, postfix) el) as [[st po]| |] eqn:Es;
    try discriminate.
  cbn [mbind result_bind]. intros H. specialize (IH _ _ H). clear H.
  change (el :: infix) with ([el] ++ infix).
  rewrite count_closing_app, (count_occ_app String.string_dec [el] infix).
  destruct (to_postfix_step_inv _ _ _ _ _ Es)
    as [(Eop & -> & ->)|[(Eop & -> & above & -> & ->)
                        |(Eop & Ene & popped & rest & -> & -> & ->)]].
  - rewrite (count_closing_other el (operand_not_closing el Eop)).
    cbn [Nat.add]. rewrite count_occ_app in IH. lia.
  - change (count_closing [")"]) with 1. cbn [Nat.add List.repeat].
    change (")" :: List.repeat ")" (count_closing infix))
      with ([")"] ++ List.repeat ")" (count_closing infix)).
    change ("(" :: List.repeat "(" (count_closing infix))
      with (["("] ++ List.repeat "(" (count_closing infix)).
    change ("(" :: st) with (["("] ++ st).
    rewrite !count_occ_app in *. lia.
  - rewrite (count_closing_other el Ene). cbn [Nat.add].
    change (el :: rest) with ([el] ++ rest) in IH.
    rewrite !count_occ_app in *. lia.
Qed.

End Token_counts.

(** Every token is kept, except that each right parenthesis disappears
    together with one left parenthesis: the output, with as many right and
    left parentheses added as the input has right ones, is a rearrangement
    of the input.  In particular the lengths agree. *)
Theorem to_postfix_keeps_tokens (infix out : list string) :
  to_postfix infix = Ok out ->
  Permutation
    (out ++ List.repeat ")" (count_closing infix)
         ++ List.repeat "(" (count_closing infix))
    infix
  /\ length out + 2 * count_closing infix = length infix.
Proof.
  intros (stack & postfix & Hloop & ->)%to_postfix_inv. split.
  - apply (Permutation_count_occ String.string_dec). intros x.
    pose proof (to_postfix_loop_occ _ _ _ _ _ x Hloop) as H.
    rewrite !count_occ_app. simpl in H. lia.
  - destruct (to_postfix_loop_inv _ _ _ _ _ Hloop) as (_ & _ & Hlen).
    rewrite List.length_app. simpl in Hlen. lia.
Qed.

Lemma to_postfix_keeps_tokens_witness :
  to_postfix ["8"; "*"; "("; "3"; "+"; "2"; ")"]
  = Ok ["8"; "3"; "2"; "+"; "*"]
  /\ Permutation (["8"; "3"; "2"; "+"; "*"] ++ [")"] ++ ["("])
       ["8"; "*"; "("; "3"; "+"; "2"; ")"].
Proof.
  split; [reflexivity|].
  apply (to_postfix_keeps_tokens ["8"; "*"; "("; "3"; "+"; "2"; ")"]).
  reflexivity.
Defined.

Section Parentheses.

Lemma count_opening_app (l1 l2 : list string) :
  count_opening (l1 ++ l2) = count_opening l1 + count_opening l2.
Proof.
  unfold count_opening. rewrite List.filter_app, List.length_app. reflexivity.
Qed.

Lemma count_opening_cons (el : string) (l : list string) :
  count_opening (el :: l) = count_opening [el] + count_opening l.
Proof. apply (count_opening_app [el] l). Qed.

Lemma count_opening_operand (el : string) :
  is_operand_token el = true -> count_opening [el] = 0.
Proof.
  intros H. unfold count_opening. cbn [List.filter].
  destruct (String.eqb "(" el) eqn:E; [|reflexivity].
  apply String.eqb_eq in E. subst el. discriminate.
Qed.

Lemma to_postfix_loop_opening (infix stack postfix stack' postfix' : list string) :
  to_postfix_loop (stack, postfix) infix = Ok (stack', postfix') ->
  count_opening postfix' + count_opening stack' + count_closing infix
  = count_opening postfix + count_opening stack + count_opening infix.
Proof.
  revert stack postfix.
  induction infix as [|el infix IH]; intros stack postfix.
  { intros [= <- <-]. unfold count_closing, count_opening. simpl. lia. }
  cbn [to_postfix_loop].
  destruct (to_postfix_step (stack, postfix) el) as [[st po]| |] eqn:Es;
    try discriminate.
  cbn [mbind result_bind]. intros H. specialize (IH _ _ H). clear H.
  rewrite (count_opening_cons el infix).
  change (el :: infix) with ([el] ++ infix). rewrite count_closing_app.
  destruct (to_postfix_step_inv _ _ _ _ _ Es)
    as [(Eop & -> & ->)|[(Eop & -> & above & -> & ->)
                        |(Eop & Ene & popped & rest & -> & -> & ->)]].
  - rewrite (count_closing_other el (operand_not_closing el Eop)).
    rewrite count_opening_app in IH. lia.
  - change (count_closing [")"]) with 1.
    change (count_opening [")"]) with 0.
    rewrite !count_opening_app, (count_opening_cons "(" st) in *.
    change (count_opening ["("]) with 1 in *. lia.
  - rewrite (count_closing_other el Ene).
    rewrite !count_opening_app, (count_opening_cons el rest) in *. lia.
Qed.

Lemma count_opening_zero (l : list string) :
  count_opening l = 0 -> ~ In "(" l.
Proof.
  induction l as [|el l IH]; [auto|].
  rewrite count_opening_cons. intros H [->|Hin].
  - change (count_opening ["("]) with 1 in H. lia.
  - apply IH; [lia|exact Hin].
Qed.

End Parentheses.

(** A parenthesis leaves the conversion only in a pair: the left
    parentheses of the input are those of the output and one for each right
    parenthesis.  So when the two counts of the input agree, which is what
    [check_expr] tests, a postfix form that is returned has no parenthesis
    in it. *)
Theorem to_postfix_parentheses (infix out : list string) :
  to_postfix infix = Ok out ->
  count_opening out + count_closing infix = count_opening infix
  /\ (count_opening infix = count_closing infix ->
      ~ In "(" out /\ ~ In ")" out).
Proof.
  intros Hout.
  destruct (to_postfix_inv _ _ Hout) as (stack & postfix & Hloop & ->).
  pose proof (to_postfix_loop_opening _ _ _ _ _ Hloop) as Hcount.
  destruct (to_postfix_loop_inv _ _ _ _ _ Hloop) as (_ & Hcl & _).
  rewrite count_opening_app.
  change (count_opening []) with 0 in Hcount.
  split; [lia|]. intros Hbal. split.
  - apply count_opening_zero. rewrite count_opening_app. lia.
  - destruct Hcl as [Hs Hp]; [intros []|intros []|].
    rewrite in_app_iff. tauto.
Qed.

Lemma to_postfix_parentheses_witness :
  to_postfix ["("; "1"; "+"; "2"; ")"; "*"; "3"] = Ok ["1"; "2"; "+"; "3"; "*"]
  /\ count_opening ["1"; "2"; "+"; "3"; "*"]
     + count_closing ["("; "1"; "+"; "2"; ")"; "*"; "3"]
     = count_opening ["("; "1"; "+"; "2"; ")"; "*"; "3"].
Proof.
  split; [reflexivity|].
  apply (to_postfix_parentheses ["("; "1"; "+"; "2"; ")"; "*"; "3"]).
  reflexivity.
Defined.

(** ** Further properties of [to_array] *)

Section Tokens.

Lemma to_array_loop_tokens (n : nat) (expr tok : string) :
  In tok (to_array_loop n expr) -> is_token tok = true.
Proof.
  revert expr. induction n as [|n IH]; intros expr; [intros []|].
  destruct expr as [|c rest]; [intros []|]. cbn [to_array_loop].
  destruct (is_operand_char c) eqn:Eo.
  { pose proof (span_all is_operand_char rest) as Hall.
    destruct (Py.span is_operand_char rest) as [run rest'].
    intros [<-|Hin]; [|exact (IH _ Hin)].
    unfold is_token. simpl in Hall. simpl. rewrite Eo, Hall. reflexivity. }
  destruct (Py.char_eqb c "("%char || Py.char_eqb c ")"%char
            || Py.char_eqb c "*"%char || Py.char_eqb c "/"%char) eqn:Ep.
  { intros [<-|Hin]; [|exact (IH _ Hin)]. revert Ep. clear.
    destruct c as [[] [] [] [] [] [] [] []]; vm_compute; congruence. }
  destruct (Py.char_eqb c "^"%char).
  { intros [<-|Hin]; [reflexivity|exact (IH _ Hin)]. }
  destruct (is_sign_char c).
  { destruct (Py.span is_sign_char rest) as [run rest'].
    intros [<-|Hin]; [|exact (IH _ Hin)].
    unfold fold_signs. destruct (Nat.odd _); reflexivity. }
  apply IH.
Qed.

End Tokens.

(** Every token of [to_array] is a run of letters and digits or one of
    [( ) * / ** + -].  In particular no token is [^], the key under which
    [precedence] lists the power operator, and no token is a number with a
    minus sign. *)
Theorem to_array_tokens (expr tok : string) :
  In tok (to_array expr) ->
  is_token tok = true /\ tok <> "^"
  /\ (is_number tok = true -> Py.isdigit tok = true).
Proof.
  intros Hin. apply to_array_loop_tokens in Hin.
  split; [exact Hin|]. split; [intros ->; discriminate|].
  intros Hnum. unfold is_token in Hin.
  repeat (apply orb_true_iff in Hin as [Hin|Hin]);
    try (apply String.eqb_eq in Hin; subst tok; discriminate).
  apply andb_true_iff in Hin as [Hne Hall].
  destruct tok as [|c tok]; [discriminate|].
  simpl in Hall. apply andb_true_iff in Hall as [Hc _].
  unfold is_number in Hnum. simpl in Hnum.
  destruct (Py.char_eqb c "-"%char) eqn:E; [|exact Hnum].
  apply char_eqb_eq in E. subst c. discriminate.
Qed.

Lemma to_array_tokens_witness :
  In "**" (to_array "2 ^ x1") /\ is_token "**" = true /\ "**" <> "^".
Proof.
  assert (Hin : In "**" (to_array "2 ^ x1")) by (right; left; reflexivity).
  split; [exact Hin|].
  destruct (to_array_tokens "2 ^ x1" "**" Hin) as (H1 & H2 & _). auto.
Defined.

Section Seams.

Lemma last_satisfies_app (p : ascii -> bool) (a b : string) :
  last_satisfies p (a +:+ b)
  = if Py.nonempty b then last_satisfies p b else last_satisfies p a.
Proof.
  induction a as [|c a IH].
  - simpl. destruct b; reflexivity.
  - change (String c a +:+ b) with (String c (a +:+ b)).
    destruct a as [|d a].
    + simpl. destruct b; reflexivity.
    + change (last_satisfies p (String c (String d a +:+ b)))
        with (last_satisfies p (String d a +:+ b)).
      rewrite IH. reflexivity.
Qed.

Lemma last_satisfies_suffix (p : ascii -> bool) (a b : string) :
  last_satisfies p (a +:+ b) = false -> last_satisfies p b = false.
Proof.
  rewrite last_satisfies_app. destruct b; [reflexivity|]. simpl. auto.
Qed.

Lemma last_satisfies_all (p : ascii -> bool) (s : string) :
  Py.nonempty s = true -> Py.all p s = true -> last_satisfies p s = true.
Proof.
  induction s as [|c s IH]; [discriminate|]. intros _. simpl.
  intros [Hc Hs]%andb_true_iff. destruct s as [|d s]; [exact Hc|].
  apply IH; [reflexivity|exact Hs].
Qed.

Lemma last_is_sign_satisfies (s : string) :
  last_is_sign s = last_satisfies is_sign_char s.
Proof.
  induction s as [|c s IH]; [reflexivity|].
  destruct s as [|d s]; [reflexivity|]. exact IH.
Qed.

Lemma operand_not_sign (c : ascii) :
  is_operand_char c = true -> is_sign_char c = false.
Proof. destruct c as [[] [] [] [] [] [] [] []]; vm_compute; congruence. Qed.

(** The span of a text that is followed by [s]: it is the span of the text
    alone when the text cannot end inside the run or [s] cannot continue
    it. *)
Lemma span_seam (p : ascii -> bool) (c : ascii) (pre s : string) :
  p c = true ->
  last_satisfies p (String c pre) = false
  \/ match s with String d _ => p d = false | EmptyString => True end ->
  Py.span p (pre +:+ s) = ((Py.span p pre).1, (Py.span p pre).2 +:+ s).
Proof.
  intros Hc [Hlast|Hs]; apply span_stops; [left|right; exact Hs].
  pose proof (span_app p pre) as Happ.
  pose proof (span_all p pre) as Hall.
  destruct (Py.span p pre) as [run rest]. simpl in Happ, Hall. simpl.
  destruct rest as [|d rest]; [|reflexivity]. exfalso.
  rewrite append_empty in Happ. subst pre.
  rewrite (last_satisfies_all p (String c run)) in Hlast;
    [discriminate|reflexivity|]. simpl. rewrite Hc. exact Hall.
Qed.

(** The tokens of a text cut in two, where no run of letters and digits
    and no run of signs goes across the cut, are the tokens of the parts. *)
Lemma to_array_split (n : nat) (pre s : string) :
  String.length pre <= n ->
  last_is_operand pre = false \/ ends_word s = true ->
  last_is_sign pre = false \/ ends_run s = true ->
  to_array (pre +:+ s) = to_array pre ++ to_array s.
Proof.
  revert pre. induction n as [|n IH]; intros pre Hlen Ho Hs.
  - destruct pre; [reflexivity|simpl in Hlen; lia].
  - destruct pre as [|c pre]; [reflexivity|].
    change (String c pre +:+ s) with (String c (pre +:+ s)).
    rewrite !to_array_unfold. simpl in Hlen.
    rewrite last_is_sign_satisfies in Hs. unfold last_is_operand in Ho.
    assert (Hsuf : forall a b, pre = a +:+ b ->
              (last_is_operand b = false \/ ends_word s = true)
              /\ (last_is_sign b = false \/ ends_run s = true)).
    { intros a b ->. rewrite last_is_sign_satisfies. unfold last_is_operand.
      split.
      - destruct Ho as [Ho|Ho]; [left|right; exact Ho].
        exact (last_satisfies_suffix _ (String c a) b Ho).
      - destruct Hs as [Hs|Hs]; [left|right; exact Hs].
        exact (last_satisfies_suffix _ (String c a) b Hs). }
    assert (Hshort : forall p, String.length (Py.span p pre).2 <= n).
    { intros p. pose proof (span_length p pre). lia. }
    assert (Hrec : forall rest, (exists a, pre = a +:+ rest) ->
              String.length rest <= n ->
              to_array (rest +:+ s) = to_array rest ++ to_array s).
    { intros rest [a Ea] Hn. destruct (Hsuf a rest Ea). apply IH; auto. }
    destruct (is_operand_char c) eqn:Eo.
    { rewrite (span_seam is_operand_char c pre s Eo).
      - pose proof (span_app is_operand_char pre) as Happ.
        specialize (Hshort is_operand_char).
        destruct (Py.span is_operand_char pre) as [run rest]. simpl in *.
        rewrite (Hrec rest); eauto.
      - destruct Ho as [Ho|Ho]; [left; exact Ho|right].
        destruct s as [|d s]; [exact I|]. simpl in Ho.
        apply negb_true_iff in Ho. exact Ho. }
    destruct (Py.char_eqb c "("%char || Py.char_eqb c ")"%char
              || Py.char_eqb c "*"%char || Py.char_eqb c "/"%char).
    { rewrite (Hrec pre); [reflexivity|exists ""; reflexivity|lia]. }
    destruct (Py.char_eqb c "^"%char).
    { rewrite (Hrec pre); [reflexivity|exists ""; reflexivity|lia]. }
    destruct (is_sign_char c) eqn:Ec.
    { rewrite (span_seam is_sign_char c pre s Ec).
      - pose proof (span_app is_sign_char pre) as Happ.
        specialize (Hshort is_sign_char).
        destruct (Py.span is_sign_char pre) as [run rest]. simpl in *.
        rewrite (Hrec rest); eauto.
      - destruct Hs as [Hs|Hs]; [left; exact Hs|right].
        destruct s as [|d s]; [exact I|]. simpl in Hs.
        apply negb_true_iff in Hs. exact Hs. }
    rewrite (Hrec pre); [reflexivity|exists ""; reflexivity|lia].
Qed.

End Seams.

(** Letters and digits that touch form one token, whatever the mix: a run
    of them that no letter or digit touches on either side is one token of
    the result, between the tokens of what comes before and after. *)
Theorem to_array_operand_run (pre word rest : string) :
  last_is_operand pre = false ->
  Py.nonempty word = true ->
  Py.all is_operand_char word = true ->
  ends_word rest = true ->
  to_array (pre +:+ word +:+ rest) = to_array pre ++ word :: to_array rest.
Proof.
  intros Hpre Hne Hword Hrest.
  destruct word as [|c word]; [discriminate|].
  simpl in Hword. apply andb_true_iff in Hword as [Hc Hword].
  rewrite (to_array_split (String.length pre) pre (String c word +:+ rest));
    [|lia|left; exact Hpre|right].
  - f_equal.
    change (String c word +:+ rest) with (String c (word +:+ rest)).
    rewrite to_array_unfold, Hc.
    rewrite (span_run is_operand_char word rest Hword); [reflexivity|].
    destruct rest as [|d rest]; [exact I|]. simpl in Hrest.
    apply negb_true_iff in Hrest. exact Hrest.
  - change (String c word +:+ rest) with (String c (word +:+ rest)).
    simpl. rewrite (operand_not_sign c Hc). reflexivity.
Qed.

Lemma to_array_operand_run_witness :
  (last_is_operand "7*" = false /\ Py.nonempty "2a" = true
   /\ Py.all is_operand_char "2a" = true /\ ends_word " + 1" = true)
  /\ to_array ("7*" +:+ "2a" +:+ " + 1")
     = to_array "7*" ++ "2a" :: to_array " + 1".
Proof.
  split; [repeat split|].
  apply (to_array_operand_run "7*" "2a" " + 1"); reflexivity.
Defined.

(** A character that is not a letter, a digit, a parenthesis or one of
    [* / ^ + - |] is passed over, and it separates what stands before it
    from what stands after it: the tokens are those of the two parts. *)
Theorem to_array_ignored_char (pre rest : string) (c : ascii) :
  is_ignored_char c = true ->
  to_array (pre +:+ String c rest) = to_array pre ++ to_array rest.
Proof.
  intros Hc. unfold is_ignored_char in Hc.
  apply andb_true_iff in Hc as [Hc Hsign].
  apply andb_true_iff in Hc as [Hc Hpow].
  apply andb_true_iff in Hc as [Hop Hpar].
  apply negb_true_iff in Hsign, Hpow, Hop, Hpar.
  rewrite (to_array_split (String.length pre) pre (String c rest));
    [|lia|right; simpl; rewrite Hop; reflexivity
     |right; simpl; rewrite Hsign; reflexivity].
  f_equal. rewrite to_array_unfold, Hop, Hpar, Hpow, Hsign. reflexivity.
Qed.

Lemma to_array_ignored_char_witness :
  is_ignored_char "."%char = true
  /\ to_array ("1" +:+ String "."%char "5") = to_array "1" ++ to_array "5".
Proof.
  split; [reflexivity|].
  apply (to_array_ignored_char "1" "5" "."%char). reflexivity.
Defined.

(** ** Further properties of the variable store *)

(** [assign_valid] returns exactly for two words of which the first is a
    name and the second a number or a name that the store knows. *)
Theorem assign_valid_accepts (vars : gmap string string)
    (cmd_arr : list string) :
  assign_valid vars cmd_arr = Ok tt
  <-> exists x value,
        cmd_arr = [x; value] /\ Py.isalpha x = true
        /\ (is_number value = true
            \/ (Py.isalpha value = true /\ is_Some (vars !! value))).
Proof.
  split.
  - destruct cmd_arr as [|x [|value [|? ?]]]; try discriminate.
    unfold assign_valid.
    destruct (Py.isalpha x) eqn:Ex; [|discriminate]. simpl.
    destruct (is_number value) eqn:Ev; simpl.
    + intros _. exists x, value. auto.
    + destruct (Py.isalpha value) eqn:Ea; [|discriminate]. simpl.
      destruct (vars !! value) as [w|] eqn:Ew; simpl.
      * intros _. exists x, value. eauto 6.
      * try rewrite bool_decide_eq_false_2 by (intros [? ?]; discriminate).
        discriminate.
  - intros (x & value & -> & Hx & [Hv|[Ha [w Hw]]]).
    + apply (assign_number vars x value Hx Hv).
    + apply (assign_variable vars x value w Hx Ha Hw).
Qed.

Lemma assign_valid_accepts_witness :
  assign_valid {["a" := "4"]} ["b"; "a"] = Ok tt.
Proof.
  apply (assign_valid_accepts {["a" := "4"]} ["b"; "a"]).
  exists "b", "a". split; [reflexivity|]. split; [reflexivity|].
  right. split; [reflexivity|]. exists "4". reflexivity.
Defined.

(** After [assign_valid] has accepted the two words, [assign] does not
    raise: it binds the name to the number as typed, or to the text the
    other name holds, and leaves every other name as it was. *)
Theorem assign_after_validation (vars : gmap string string)
    (x value : string) :
  assign_valid vars [x; value] = Ok tt ->
  exists w,
    assign vars x value = Ok (<[x := w]> vars)
    /\ (if is_number value then w = value else vars !! value = Some w)
    /\ <[x := w]> vars !! x = Some w
    /\ (forall k, k <> x -> <[x := w]> vars !! k = vars !! k).
Proof.
  intros Hvalid. unfold assign_valid in Hvalid. unfold assign.
  destruct (Py.isalpha x); [|discriminate]. simpl in Hvalid.
  assert (Hframe : forall w,
            <[x := w]> vars !! x = Some w
            /\ (forall k, k <> x -> <[x := w]> vars !! k = vars !! k)).
  { intros w. split; [apply lookup_insert_eq|].
    intros k Hk. apply lookup_insert_ne. congruence. }
  destruct (is_number value); simpl in Hvalid.
  - exists value. destruct (Hframe value). auto.
  - destruct (Py.isalpha value); [|discriminate]. simpl in Hvalid.
    destruct (vars !! value) as [w|] eqn:Ew.
    + exists w. destruct (Hframe w). auto.
    + try rewrite bool_decide_eq_false_2 in Hvalid
        by (intros [? ?]; discriminate).
      discriminate.
Qed.

Lemma assign_after_validation_witness :
  assign_valid {["a" := "4"]} ["b"; "a"] = Ok tt
  /\ exists w, assign {["a" := "4"]} "b" "a" = Ok (<["b" := w]> {["a" := "4"]}).
Proof.
  assert (Hvalid : assign_valid {["a" := "4"]} ["b"; "a"] = Ok tt)
    by reflexivity.
  split; [exact Hvalid|].
  destruct (assign_after_validation {["a" := "4"]} "b" "a" Hvalid)
    as (w & Hw & _).
  exists w. exact Hw.
Defined.

(** ** Further properties of [run_calc] *)

Section Session.

Lemma assign_shape (vars vars' : gmap string string) (x value : string) :
  assign vars x value = Ok vars' -> exists w, vars' = <[x := w]> vars.
Proof.
  unfold assign. destruct (is_number value); [intros [= <-]; eauto|].
  destruct (vars !! value); [intros [= <-]; eauto|discriminate].
Qed.

Lemma assign_valid_name (vars : gmap string string) (x : string)
    (rest : list string) :
  assign_valid vars (x :: rest) = Ok tt -> Py.isalpha x = true.
Proof.
  destruct rest as [|value [|? ?]]; try discriminate. unfold assign_valid.
  destruct (Py.isalpha x); [reflexivity|discriminate].
Qed.

(** What a line that is processed to the end can have done to the store. *)
Lemma process_line_store (c c' : Calculator) (inp : string)
    (out : list string) :
  process_line c inp = Ok (c', out) ->
  variables c' = variables c
  \/ (out = [] /\ is_assignment inp = true
      /\ exists x w, Py.isalpha x = true
                     /\ variables c' = <[x := w]> (variables c)).
Proof.
  unfold process_line, print_exn.
  destruct (is_empty inp); [intros [= <- _]; auto|].
  destruct (is_number inp); [intros [= <- _]; auto|].
  destruct (is_variable inp).
  { destruct (variables c !! _); intros [= <- _]; auto. }
  destruct (is_assignment inp).
  { destruct (assign_valid _ _) as [[]|e|] eqn:Ev; simpl.
    - destruct (Py.split _) as [|x [|value [|? ?]]]; simpl; try discriminate.
      destruct (assign _ x value) as [vars'| |] eqn:Ea; simpl.
      + intros [= <- <-]. right. simpl.
        destruct (assign_shape _ _ _ _ Ea) as [w ->].
        pose proof (assign_valid_name _ _ _ Ev). eauto 8.
      + destruct (exn_str e); [intros [= <- _]; auto|discriminate].
      + discriminate.
    - destruct (exn_str e); [intros [= <- _]; auto|discriminate].
    - discriminate. }
  destruct (is_command inp).
  { destruct (execute_cmd c inp) as [[c1 out1]|e|] eqn:Ec.
    - intros [= <- _]. left. exact (execute_cmd_variables _ _ _ _ Ec).
    - destruct e; try discriminate. simpl. intros [= <- _]. auto.
    - discriminate. }
  destruct (check_expr inp) as [[]|e|].
  - destruct (to_postfix _); simpl; try discriminate.
    destruct (calculate_postfix _ _); simpl; try discriminate.
    intros [= <- _]. auto.
  - destruct e; try discriminate. simpl. intros [= <- _]. auto.
  - discriminate.
Qed.

(** What a line that is processed to the end can have done to [run]. *)
Lemma process_line_run (c c' : Calculator) (inp : string)
    (out : list string) :
  process_line c inp = Ok (c', out) ->
  run c' = run c \/ (inp = "/exit" /\ run c' = false /\ out = ["Bye!"]).
Proof.
  unfold process_line, print_exn.
  destruct (is_empty inp); [intros [= <- _]; auto|].
  destruct (is_number inp); [intros [= <- _]; auto|].
  destruct (is_variable inp).
  { destruct (variables c !! _); intros [= <- _]; auto. }
  destruct (is_assignment inp).
  { destruct (_ ← assign_valid _ _; _) as [vars'|e|]; simpl.
    - intros [= <- _]. auto.
    - destruct (exn_str e); [intros [= <- _]; auto|discriminate].
    - discriminate. }
  destruct (is_command inp).
  { unfold execute_cmd. destruct (String.eqb inp "/exit") eqn:E.
    - apply String.eqb_eq in E. intros [= <- <-]. auto.
    - destruct (String.eqb inp "/help"); intros [= <- _]; auto. }
  destruct (check_expr inp) as [[]|e|].
  - destruct (to_postfix _); simpl; try discriminate.
    destruct (calculate_postfix _ _); simpl; try discriminate.
    intros [= <- _]. auto.
  - destruct e; try discriminate. simpl. intros [= <- _]. auto.
  - discriminate.
Qed.

Lemma run_calc_stopped (c : Calculator) (lines : list string) :
  run c = false -> run_calc c lines = ([], Finished).
Proof. intros H. destruct lines; simpl; rewrite H; reflexivity. Qed.

End Session.

(** Only an accepted assignment writes to the store, and it writes one
    name: any other line that is processed to the end, and any assignment
    that is refused, leaves the store as it was. *)
Theorem process_line_writes_one_name (c c' : Calculator) (inp : string)
    (out : list string) :
  process_line c inp = Ok (c', out) ->
  (is_assignment inp = false \/ out <> [] -> variables c' = variables c)
  /\ (variables c' <> variables c ->
      exists x w, Py.isalpha x = true
                  /\ variables c' = <[x := w]> (variables c)).
Proof.
  intros H. destruct (process_line_store c c' inp out H)
    as [Hsame|(-> & Ha & x & w & Hx & Hw)].
  - split; [auto|]. intros Hne. contradiction.
  - split.
    + intros [Hna|Hout]; [congruence|contradiction].
    + intros _. eauto.
Qed.

Lemma process_line_writes_one_name_witness :
  process_line init "x = y" = Ok (init, ["Unknown variable"])
  /\ variables init = variables init.
Proof.
  assert (H : process_line init "x = y" = Ok (init, ["Unknown variable"]))
    by reflexivity.
  split; [exact H|].
  apply (process_line_writes_one_name init init "x = y" _ H).
  right. discriminate.
Defined.

(** Every name in the store is alphabetic, after any line, if it was so
    before. *)
Theorem process_line_keys_ok (c c' : Calculator) (inp : string)
    (out : list string) :
  keys_ok (variables c) -> process_line c inp = Ok (c', out) ->
  keys_ok (variables c').
Proof.
  intros Hok H. destruct (process_line_store c c' inp out H)
    as [->|(_ & _ & x & w & Hx & ->)]; [exact Hok|].
  intros k v. destruct (decide (x = k)) as [<-|Hne].
  - intros _. exact Hx.
  - rewrite lookup_insert_ne by exact Hne. apply Hok.
Qed.

Lemma process_line_keys_ok_witness :
  keys_ok (variables init)
  /\ keys_ok {["a" := "4"]}.
Proof.
  assert (H0 : keys_ok (variables init)).
  { intros k v. unfold init. cbn [variables]. rewrite lookup_empty.
    discriminate. }
  split; [exact H0|].
  change (keys_ok (variables (MkCalculator true {["a" := "4"]}))).
  exact (process_line_keys_ok init (MkCalculator true {["a" := "4"]})
           "a = 4" [] H0 eq_refl).
Defined.

(** [run_calc] returns only after the line [/exit]: a session that ends
    without an exception has read that line, and the last thing it printed
    is [Bye!]. *)
Theorem run_calc_finishes_on_exit (c : Calculator) (lines out : list string) :
  run c = true -> run_calc c lines = (out, Finished) ->
  In "/exit" lines /\ last out = Some "Bye!".
Proof.
  revert c out. induction lines as [|inp lines IH]; intros c out Hrun.
  - simpl. rewrite Hrun. discriminate.
  - cbn [run_calc]. rewrite Hrun. cbn [negb].
    destruct (process_line c inp) as [[c' o]| |] eqn:Ep; try discriminate.
    destruct (run_calc c' lines) as [o' e] eqn:Er. cbn.
    intros [= <- ->].
    destruct (process_line_run c c' inp o Ep) as [Hsame|(-> & Hstop & ->)].
    + rewrite Hrun in Hsame. destruct (IH c' o' Hsame Er) as [Hin Hlast].
      split; [right; exact Hin|]. rewrite last_app, Hlast. reflexivity.
    + rewrite (run_calc_stopped c' lines Hstop) in Er.
      injection Er as <-. split; [left; reflexivity|reflexivity].
Qed.

Lemma run_calc_finishes_on_exit_witness :
  (run init = true
   /\ run_calc init ["a = 4"; "a"; "/exit"; "a"] = (["4"; "Bye!"], Finished))
  /\ In "/exit" ["a = 4"; "a"; "/exit"; "a"]
  /\ last ["4"; "Bye!"] = Some "Bye!".
Proof.
  split; [split; reflexivity|].
  apply (run_calc_finishes_on_exit init ["a = 4"; "a"; "/exit"; "a"]);
    reflexivity.
Defined.

(** Once a session has ended, by [/exit] or by an exception that nothing
    catches, no later line is read: the lines that follow change neither
    the output nor the ending. *)
Theorem run_calc_ignores_lines_after_end (c : Calculator)
    (lines more : list string) :
  (run_calc c lines).2 <> Uncaught EOFError ->
  run_calc c (lines ++ more) = run_calc c lines.
Proof.
  revert c. induction lines as [|inp lines IH]; intros c.
  - simpl. destruct (run c) eqn:Hrun; simpl; [congruence|].
    intros _. apply run_calc_stopped. exact Hrun.
  - cbn [run_calc app]. destruct (negb (run c)); [reflexivity|].
    destruct (process_line c inp) as [[c' o]| |]; try reflexivity.
    specialize (IH c').
    destruct (run_calc c' lines) as [o' e]. simpl. intros He.
    rewrite (IH He). reflexivity.
Qed.

Lemma run_calc_ignores_lines_after_end_witness :
  (run_calc init ["1 +"]).2 <> Uncaught EOFError
  /\ run_calc init (["1 +"] ++ ["2"; "3"]) = run_calc init ["1 +"].
Proof.
  assert (H : (run_calc init ["1 +"]).2 <> Uncaught EOFError)
    by discriminate.
  split; [exact H|].
  apply (run_calc_ignores_lines_after_end init ["1 +"] ["2"; "3"] H).
Defined.

Section Classification.

Lemma command_inv (inp : string) :
  is_command inp = true ->
  exists s, inp = String "/"%char s
            /\ is_empty inp = false /\ is_number inp = false
            /\ is_variable inp = false.
Proof.
  destruct inp as [|c s]; [discriminate|]. unfold is_command.
  intros <-%char_eqb_eq. exists s. repeat split.
Qed.

Lemma split_from_head (word : list ascii) (s : string) :
  word <> [] ->
  exists tail ws,
    Py.split_from word s
    = String.string_of_list_ascii (rev word ++ tail) :: ws.
Proof.
  revert word. induction s as [|c s IH]; intros word Hne.
  - destruct word as [|a word]; [contradiction|].
    exists [], []. rewrite app_nil_r. reflexivity.
  - cbn [Py.split_from]. destruct (Py.char_isspace c).
    + destruct word as [|a word]; [contradiction|].
      exists [], (Py.split_from [] s). rewrite app_nil_r. reflexivity.
    + destruct (IH (c :: word)) as (tail & ws & ->); [discriminate|].
      exists (c :: tail), ws. cbn [rev]. rewrite <- app_assoc. reflexivity.
Qed.

End Classification.

(** A line that starts with a slash, has no equals sign and is neither
    [/exit] nor [/help] prints [Unknown command] and changes nothing. *)
Theorem unknown_command (c : Calculator) (inp : string) :
  is_command inp = true -> is_assignment inp = false ->
  inp <> "/exit" -> inp <> "/help" ->
  process_line c inp = Ok (c, ["Unknown command"]).
Proof.
  intros Hcmd Hasg Hexit Hhelp.
  destruct (command_inv inp Hcmd) as (s & _ & He & Hn & Hv).
  unfold process_line. rewrite He, Hn, Hv, Hasg, Hcmd. unfold execute_cmd.
  apply String.eqb_neq in Hexit, Hhelp. rewrite Hexit, Hhelp. reflexivity.
Qed.

Lemma unknown_command_witness :
  (is_command "/quit" = true /\ is_assignment "/quit" = false
   /\ "/quit" <> "/exit" /\ "/quit" <> "/help")
  /\ process_line init "/quit" = Ok (init, ["Unknown command"]).
Proof.
  split; [repeat split; discriminate|].
  apply (unknown_command init "/quit"); try reflexivity; discriminate.
Defined.

(** The test for an assignment comes before the test for a command: a line
    that starts with a slash and has an equals sign is never executed as a
    command, not even [/exit = 1].  It is refused as an assignment, with
    [Invalid identifier] or [Invalid assignment], and nothing changes. *)
Theorem command_with_equals_is_assignment (c : Calculator) (inp : string) :
  is_command inp = true -> is_assignment inp = true ->
  exists out,
    process_line c inp = Ok (c, out) /\ is_assignment_complaint out = true.
Proof.
  intros Hcmd Hasg.
  destruct (command_inv inp Hcmd) as (s & -> & He & Hn & Hv).
  unfold process_line. rewrite He, Hn, Hv, Hasg.
  change (Py.replace "="%char " "%char (String "/"%char s))
    with (String "/"%char (Py.replace "="%char " "%char s)).
  unfold Py.split. cbn [Py.split_from].
  change (Py.char_isspace "/"%char) with false. cbn iota.
  destruct (split_from_head ["/"%char] (Py.replace "="%char " "%char s))
    as (tail & ws & ->); [discriminate|].
  cbn [rev app String.string_of_list_ascii].
  destruct ws as [|value [|? ?]].
  - exists ["Invalid assignment"]. split; reflexivity.
  - exists ["Invalid identifier"]. split; reflexivity.
  - exists ["Invalid assignment"]. split; reflexivity.
Qed.

Lemma command_with_equals_is_assignment_witness :
  (is_command "/exit = 1" = true /\ is_assignment "/exit = 1" = true)
  /\ exists out, process_line init "/exit = 1" = Ok (init, out)
                 /\ is_assignment_complaint out = true.
Proof.
  split; [split; reflexivity|].
  apply (command_with_equals_is_assignment init "/exit = 1"); reflexivity.
Defined.

(** Blanks inside a name are dropped before the look-up: the line of two
    names [x y] prints the value of the variable [xy], or
    [Unknown variable]. *)
Theorem reference_ignores_blank (c : Calculator) (x y : string) :
  Py.isalpha x = true -> Py.isalpha y = true ->
  process_line c (x +:+ " " +:+ y) =
    match variables c !! (x +:+ y) with
    | Some v => Ok (c, [v])
    | None => Ok (c, ["Unknown variable"])
    end.
Proof.
  intros Hx Hy.
  destruct (isalpha_inv x Hx) as (a & x' & Ex & Ha & Hx').
  unfold process_line.
  assert (is_empty (x +:+ " " +:+ y) = false) as ->
    by (rewrite Ex; reflexivity).
  assert (is_number (x +:+ " " +:+ y) = false) as ->.
  { rewrite Ex. unfold is_number.
    change (String a x' +:+ " " +:+ y) with (String a (x' +:+ " " +:+ y)).
    simpl. rewrite (alpha_not_minus a Ha). unfold Py.isdigit. simpl.
    rewrite (alpha_not_digit a Ha). reflexivity. }
  assert (Hrem : Py.remove " "%char (x +:+ " " +:+ y) = x +:+ y).
  { rewrite !remove_app, (alpha_remove_blank x (isalpha_all x Hx)),
      (alpha_remove_blank y (isalpha_all y Hy)). reflexivity. }
  assert (is_variable (x +:+ " " +:+ y) = true) as ->.
  { unfold is_variable, Py.isalpha. rewrite Hrem, all_app,
      (isalpha_all x Hx), (isalpha_all y Hy), Ex. reflexivity. }
  rewrite Hrem. reflexivity.
Qed.

Lemma reference_ignores_blank_witness :
  (Py.isalpha "a" = true /\ Py.isalpha "b" = true)
  /\ process_line (MkCalculator true {["ab" := "7"]}) "a b"
     = Ok (MkCalculator true {["ab" := "7"]}, ["7"]).
Proof.
  split; [split; reflexivity|].
  exact (reference_ignores_blank (MkCalculator true {["ab" := "7"]}) "a" "b"
           eq_refl eq_refl).
Defined.

Lemma other_lines_return_witness :
  is_expression_line "x = = 1" = false
  /\ exists eff, process_line init "x = = 1" = Ok eff.
Proof.
  split; [reflexivity|].
  apply (other_lines_return init "x = = 1"). reflexivity.
Defined.

Lemma process_line_store_ok_witness :
  store_ok (variables init) /\ store_ok {["a" := "-4"]}.
Proof.
  assert (H0 : store_ok (variables init)).
  { intros k v. unfold init. cbn [variables]. rewrite lookup_empty.
    discriminate. }
  split; [exact H0|].
  change (store_ok (variables (MkCalculator true {["a" := "-4"]}))).
  exact (process_line_store_ok init (MkCalculator true {["a" := "-4"]})
           "a = -4" [] H0 eq_refl).
Defined.

(** ** Further properties of the evaluation *)

Section Operands.

Lemma step_operand (stack postfix : list string) (el : string) :
  is_operand_token el = true ->
  to_postfix_step (stack, postfix) el = Ok (stack, postfix ++ [el]).
Proof.
  intros H. unfold to_postfix_step. fold (is_operand_token el).
  rewrite H. reflexivity.
Qed.

Lemma convert_operands (stack postfix ds : list string) :
  Forall (fun t => Py.isdigit t = true) ds ->
  to_postfix_loop (stack, postfix) ds = Ok (stack, postfix ++ ds).
Proof.
  intros Hds. revert postfix.
  induction Hds as [|d ds Hd _ IH]; intros postfix.
  - rewrite app_nil_r. reflexivity.
  - cbn [to_postfix_loop]. rewrite step_operand.
    + cbn [mbind result_bind]. rewrite IH, <- app_assoc. reflexivity.
    + unfold is_operand_token. rewrite Hd. reflexivity.
Qed.

Lemma digits_are_number (d : string) :
  Py.isdigit d = true -> is_number d = true.
Proof.
  intros H. unfold is_number. destruct d as [|c d]; [discriminate|].
  simpl. destruct (Py.char_eqb c "-"%char) eqn:E; [|exact H].
  apply char_eqb_eq in E. subst c. discriminate.
Qed.

Lemma push_numbers (vars : gmap string string) (stack : list pyobj)
    (ds : list string) :
  Forall (fun t => Py.isdigit t = true) ds ->
  calculate_loop vars stack ds = Ok (rev (map PStr ds) ++ stack).
Proof.
  intros Hds. revert stack.
  induction Hds as [|d ds Hd _ IH]; intros stack; [reflexivity|].
  cbn [calculate_loop]. unfold calculate_step at 1.
  rewrite (digits_are_number d Hd). cbn [mbind result_bind].
  rewrite IH. cbn [map rev]. rewrite <- app_assoc. reflexivity.
Qed.

Lemma decimal_token_digits (d : string) :
  is_decimal_token d = true ->
  Py.isdigit d = true /\ Py.lstrip "-"%char d = d
  /\ Py.all Py.char_isdecimal d = true.
Proof.
  unfold is_decimal_token. intros [Hne Hall]%andb_true_iff.
  assert (Hdigit : Py.isdigit d = true).
  { unfold Py.isdigit. rewrite Hne. simpl.
    eapply all_impl; [|exact Hall]. intros e He.
    unfold Py.char_isdigit. unfold Py.char_isdecimal in He. rewrite He.
    reflexivity. }
  repeat split; try assumption.
  destruct d as [|c d]; [reflexivity|]. simpl.
  destruct (Py.char_eqb c "-"%char) eqn:E; [|reflexivity].
  apply char_eqb_eq in E. subst c. discriminate.
Qed.

End Operands.

(** Values that are left over are lost without a word: for a line of
    numbers only, [to_postfix] keeps the tokens in order and
    [calculate_postfix] returns the last one, so [1 2 3] gives 3. *)
Theorem numbers_only_last_wins (vars : gmap string string)
    (ds : list string) (d : string) :
  Forall (fun t => Py.isdigit t = true) ds ->
  is_decimal_token d = true ->
  to_postfix (ds ++ [d]) = Ok (ds ++ [d])
  /\ calculate_postfix vars (ds ++ [d]) = Ok (decimal_value 0 d).
Proof.
  intros Hds Hd. destruct (decimal_token_digits d Hd) as (Hdigit & Hs & Hdec).
  assert (Hall : Forall (fun t => Py.isdigit t = true) (ds ++ [d])).
  { apply Forall_app. split; [exact Hds|]. constructor; auto. }
  split.
  - unfold to_postfix. rewrite (convert_operands [] [] _ Hall).
    cbn [mbind result_bind app]. rewrite app_nil_r. reflexivity.
  - unfold calculate_postfix. rewrite (push_numbers vars [] _ Hall).
    cbn [mbind result_bind]. rewrite map_app, rev_app_distr. cbn [map rev app].
    cbn [py_int]. rewrite Hs, Hdigit, Hdec, Nat.sub_diag. reflexivity.
Qed.

Lemma numbers_only_last_wins_witness :
  (Forall (fun t => Py.isdigit t = true) ["1"; "2"]
   /\ is_decimal_token "3" = true)
  /\ calculate_postfix ∅ (["1"; "2"] ++ ["3"]) = Ok (decimal_value 0 "3").
Proof.
  assert (H : Forall (fun t => Py.isdigit t = true) ["1"; "2"])
    by (repeat constructor).
  split; [split; [exact H|reflexivity]|].
  apply (numbers_only_last_wins ∅ ["1"; "2"] "3" H). reflexivity.
Defined.

(** The sign of a negative left operand is applied after the power: for an
    intermediate result [x] below zero and an exponent [y] that is not
    negative, the operator [**] pushes [-((-x) ^ y)], so a negative number
    raised to an even power comes out negative. *)
Theorem power_of_negative (vars : gmap string string) (b : pyobj) (x y : Z)
    (rest : list pyobj) :
  (x < 0)%Z -> (0 <= y)%Z -> denotes b y ->
  calculate_step vars (b :: PInt x :: rest) "**"
  = Ok (PInt (- ((- x) ^ y)) :: rest).
Proof.
  intros Hx Hy (ob & Eb & Vb).
  assert (Ex : (x <? 0)%Z = true) by (apply Z.ltb_lt; exact Hx).
  assert (Ea : read_operand (PInt x)
               = Ok (Operand 1 (ANum (PInt (Z.abs x))))).
  { simpl. rewrite Ex. reflexivity. }
  assert (Va : operand_value (Operand 1 (ANum (PInt (Z.abs x))))
               = Ok (PInt x)).
  { unfold operand_value, with_signs. simpl. f_equal. f_equal. lia. }
  rewrite (calculate_step_operator vars (PInt x) b _ ob x y rest "**"
             Ea Va Eb Vb eq_refl).
  unfold int_op. simpl.
  destruct (0 <=? y)%Z eqn:E; [|apply Z.leb_gt in E; lia].
  simpl. unfold with_signs. simpl.
  replace (Z.abs x) with (- x)%Z by lia. reflexivity.
Qed.

Lemma power_of_negative_witness :
  ((-2 < 0)%Z /\ (0 <= 2)%Z /\ denotes (PStr "2") 2)
  /\ calculate_step ∅ [PStr "2"; PInt (-2)] "**" = Ok [PInt (-4)].
Proof.
  assert (H2 : denotes (PStr "2") 2).
  { exists (Operand 0 (ANum (PInt 2))). split; reflexivity. }
  split; [split; [lia|split; [lia|exact H2]]|].
  exact (power_of_negative ∅ (PStr "2") (-2) 2 [] eq_refl
           (Zle_bool_imp_le 0 2 eq_refl) H2).
Defined.

(** Dividing by an operand that reads as zero raises
    [ZeroDivisionError]. *)
Theorem division_by_zero (vars : gmap string string) (a b : pyobj) (x : Z)
    (rest : list pyobj) :
  denotes a x -> denotes b 0 ->
  calculate_step vars (b :: a :: rest) "/" = Raise ZeroDivisionError.
Proof.
  intros (oa & Ea & Va) (ob & Eb & Vb).
  rewrite (calculate_step_operator vars a b oa ob x 0 rest "/"
             Ea Va Eb Vb eq_refl).
  reflexivity.
Qed.

Lemma division_by_zero_witness :
  (denotes (PStr "7") 7 /\ denotes (PStr "00") 0)
  /\ calculate_step ∅ [PStr "00"; PStr "7"] "/" = Raise ZeroDivisionError.
Proof.
  assert (H7 : denotes (PStr "7") 7).
  { exists (Operand 0 (ANum (PInt 7))). split; reflexivity. }
  assert (H0 : denotes (PStr "00") 0).
  { exists (Operand 0 (ANum (PInt 0))). split; reflexivity. }
  split; [split; assumption|].
  exact (division_by_zero ∅ (PStr "7") (PStr "00") 7 [] H7 H0).
Defined.

(** A left operand whose digits are not a decimal literal of Python, such
    as the stored text [007], makes every operator raise [SyntaxError]. *)
Theorem leading_zero_operand (vars : gmap string string) (s el : string)
    (b : pyobj) (rest : list pyobj) :
  is_number s = true ->
  decimal_literal (Py.lstrip "-"%char s) = false ->
  is_number el = false -> Py.isalpha el = false ->
  calculate_step vars (b :: PStr s :: rest) el = Raise SyntaxError.
Proof.
  intros Hs Hlit Hn Ha. unfold calculate_step. rewrite Hn, Ha.
  unfold py_eval. cbn [read_operand]. unfold is_number in Hs.
  rewrite Hs, Hlit. reflexivity.
Qed.

Lemma leading_zero_operand_witness :
  (is_number "007" = true
   /\ decimal_literal (Py.lstrip "-"%char "007") = false
   /\ is_number "+" = false /\ Py.isalpha "+" = false)
  /\ calculate_step ∅ [PStr "1"; PStr "007"] "+" = Raise SyntaxError.
Proof.
  split; [repeat split|].
  apply (leading_zero_operand ∅ "007" "+" (PStr "1") []); reflexivity.
Defined.

Section Power.

Lemma operator_cases (op : string) :
  In op operator_tokens ->
  op = "+" \/ op = "-" \/ op = "*" \/ op = "/" \/ op = "**".
Proof. unfold operator_tokens. simpl. intuition auto. Qed.

Lemma step_first_operator (op : string) (postfix : list string) :
  In op operator_tokens ->
  to_postfix_step ([], postfix) op = Ok ([op], postfix).
Proof.
  intros [->|[->|[->|[->| ->]]]]%operator_cases; reflexivity.
Qed.

Lemma step_power_on_operator (op : string) (stack postfix : list string) :
  In op operator_tokens ->
  to_postfix_step (op :: stack, postfix) "**" = Raise KeyError.
Proof.
  intros [->|[->|[->|[->| ->]]]]%operator_cases; reflexivity.
Qed.

Lemma step_operator_on_power (op : string) (stack postfix : list string) :
  In op operator_tokens ->
  to_postfix_step ("**" :: stack, postfix) op = Raise KeyError.
Proof.
  intros [->|[->|[->|[->| ->]]]]%operator_cases; reflexivity.
Qed.

End Power.

(** The power operator cannot stand beside another operator: with [**]
    before or after any operator between three operands, [to_postfix]
    looks [**] up in [precedence], where it is not, and raises
    [KeyError]. *)
Theorem power_beside_operator (a b c op : string) :
  is_operand_token a = true -> is_operand_token b = true ->
  is_operand_token c = true -> In op operator_tokens ->
  to_postfix [a; op; b; "**"; c] = Raise KeyError
  /\ to_postfix [a; "**"; b; op; c] = Raise KeyError.
Proof.
  intros Ha Hb Hc Hop.
  assert (Hpow : In "**" operator_tokens) by (simpl; tauto).
  unfold to_postfix. cbn [to_postfix_loop].
  rewrite !(step_operand _ _ a Ha). cbn [mbind result_bind].
  rewrite (step_first_operator op _ Hop), (step_first_operator "**" _ Hpow).
  cbn [mbind result_bind].
  rewrite !(step_operand _ _ b Hb). cbn [mbind result_bind].
  rewrite (step_power_on_operator op _ _ Hop),
    (step_operator_on_power op _ _ Hop).
  split; reflexivity.
Qed.

Lemma power_beside_operator_witness :
  (is_operand_token "2" = true /\ In "*" operator_tokens)
  /\ to_postfix ["2"; "*"; "2"; "**"; "2"] = Raise KeyError.
Proof.
  assert (Hin : In "*" operator_tokens) by (right; right; left; reflexivity).
  split; [split; [reflexivity|exact Hin]|].
  apply (power_beside_operator "2" "2" "2" "*"); try reflexivity. exact Hin.
Defined.

(** ** Further properties of parenthesised groups and of the check *)

Section Groups.

Lemma known_cases (op : string) :
  In op known_operators -> op = "+" \/ op = "-" \/ op = "*" \/ op = "/".
Proof. unfold known_operators. simpl. intuition auto. Qed.

Lemma step_after_opening (op : string) (stack postfix : list string) :
  In op known_operators ->
  to_postfix_step ("(" :: stack, postfix) op = Ok (op :: "(" :: stack, postfix).
Proof. intros [->|[->|[->| ->]]]%known_cases; reflexivity. Qed.

(** The second operator of a group: it is held above the first when it
    binds tighter, and otherwise takes the first operator and the left
    parenthesis to the output. *)
Lemma step_second_operator (op1 op2 : string) (p1 p2 : nat)
    (postfix : list string) :
  In op1 known_operators -> In op2 known_operators ->
  precedence !! op1 = Some p1 -> precedence !! op2 = Some p2 ->
  to_postfix_step ([op1; "("], postfix) op2
  = if p1 <? p2 then Ok ([op2; op1; "("], postfix)
    else Ok ([op2], postfix ++ [op1; "("]).
Proof.
  intros [->|[->|[->| ->]]]%known_cases [->|[->|[->| ->]]]%known_cases;
    intros [= <-] [= <-]; cbn; rewrite <- ?app_assoc; reflexivity.
Qed.

Lemma step_closing_group (op1 op2 : string) (postfix : list string) :
  In op1 known_operators -> In op2 known_operators ->
  to_postfix_step ([op2; op1; "("], postfix) ")"
  = Ok ([], postfix ++ [op2; op1])
  /\ to_postfix_step ([op2], postfix) ")" = Raise IndexError.
Proof.
  intros [->|[->|[->| ->]]]%known_cases [->|[->|[->| ->]]]%known_cases;
    split; cbn; rewrite <- ?app_assoc; reflexivity.
Qed.

End Groups.

(** A group of three operands in parentheses is converted only when its
    second operator binds tighter than the first, as in [(a + b * c)].
    When it binds as tight or looser, as in [(a + b - c)] or
    [(a * b + c)], the second operator takes the left parenthesis off the
    stack and the right parenthesis raises [IndexError]. *)
Theorem group_of_three (a b c op1 op2 : string) (p1 p2 : nat) :
  is_operand_token a = true -> is_operand_token b = true ->
  is_operand_token c = true ->
  In op1 known_operators -> In op2 known_operators ->
  precedence !! op1 = Some p1 -> precedence !! op2 = Some p2 ->
  to_postfix ["("; a; op1; b; op2; c; ")"]
  = if p1 <? p2 then Ok [a; b; c; op2; op1] else Raise IndexError.
Proof.
  intros Ha Hb Hc H1 H2 E1 E2. unfold to_postfix. cbn [to_postfix_loop].
  change (to_postfix_step ([], []) "(") with (@Ok conv_state (["("], [])).
  cbn [mbind result_bind].
  rewrite (step_operand _ _ a Ha). cbn [mbind result_bind].
  rewrite (step_after_opening op1 _ _ H1). cbn [mbind result_bind].
  rewrite (step_operand _ _ b Hb). cbn [mbind result_bind].
  rewrite (step_second_operator op1 op2 p1 p2 _ H1 H2 E1 E2).
  destruct (p1 <? p2); cbn [mbind result_bind];
    rewrite (step_operand _ _ c Hc); cbn [mbind result_bind];
    destruct (step_closing_group op1 op2 (([] ++ [a]) ++ [b]) H1 H2)
      as [Hclose Hraise].
  - destruct (step_closing_group op1 op2 ((([] ++ [a]) ++ [b]) ++ [c]) H1 H2)
      as [-> _].
    cbn [mbind result_bind]. rewrite app_nil_r. reflexivity.
  - destruct (step_closing_group op1 op2
                (((([] ++ [a]) ++ [b]) ++ [op1; "("]) ++ [c]) H1 H2)
      as [_ ->].
    reflexivity.
Qed.

Lemma group_of_three_witness :
  (In "+" known_operators /\ In "-" known_operators
   /\ precedence !! "+" = Some 1 /\ precedence !! "-" = Some 1)
  /\ to_postfix ["("; "a"; "+"; "b"; "-"; "c"; ")"] = Raise IndexError.
Proof.
  assert (Hp : In "+" known_operators) by (left; reflexivity).
  assert (Hm : In "-" known_operators) by (right; left; reflexivity).
  split; [repeat split; assumption|].
  exact (group_of_three "a" "b" "c" "+" "-" 1 1 eq_refl eq_refl eq_refl
           Hp Hm eq_refl eq_refl).
Defined.

(** [check_expr] counts the parentheses and does not look at their order:
    an expression line that starts with a right parenthesis and has as many
    left ones passes the check, and the conversion raises [IndexError]. *)
Theorem closing_first_raises (c : Calculator) (rest : string) :
  is_assignment (String ")"%char rest) = false ->
  check_expr (String ")"%char rest) = Ok tt ->
  process_line c (String ")"%char rest) = Raise IndexError.
Proof.
  intros Hasg Hcheck. unfold process_line.
  change (is_empty (String ")"%char rest)) with false.
  change (is_number (String ")"%char rest)) with false.
  change (is_variable (String ")"%char rest)) with false.
  change (is_command (String ")"%char rest)) with false.
  rewrite Hasg, Hcheck. cbn iota.
  rewrite to_array_unfold.
  change (is_operand_char ")"%char) with false. cbn iota.
  change (Py.char_eqb ")" "(" || Py.char_eqb ")" ")" || Py.char_eqb ")" "*"
          || Py.char_eqb ")" "/") with true. cbn iota.
  reflexivity.
Qed.

Lemma closing_first_raises_witness :
  (is_assignment ")1+2(" = false /\ check_expr ")1+2(" = Ok tt)
  /\ process_line init ")1+2(" = Raise IndexError.
Proof.
  split; [split; reflexivity|].
  apply (closing_first_raises init "1+2("); reflexivity.
Defined.

(** The output of a session grows with its input: what is printed for some
    lines is the beginning of what is printed when more lines follow. *)
Theorem run_calc_output_grows (c : Calculator) (lines more : list string) :
  exists later,
    (run_calc c (lines ++ more)).1 = (run_calc c lines).1 ++ later.
Proof.
  revert c. induction lines as [|inp lines IH]; intros c.
  - exists (run_calc c more).1.
    destruct more; simpl; destruct (run c); reflexivity.
  - cbn [run_calc app]. destruct (negb (run c)); [exists []; reflexivity|].
    destruct (process_line c inp) as [[c' o]| |];
      try (exists []; reflexivity).
    destruct (IH c') as [later Hlater].
    destruct (run_calc c' lines) as [o1 e1].
    destruct (run_calc c' (lines ++ more)) as [o2 e2].
    simpl in *. exists later. rewrite Hlater, <- app_assoc. reflexivity.
Qed.

Section Assignment_lines.

Lemma all_contains (p : ascii -> bool) (c : ascii) (s : string) :
  Py.contains c s = true -> p c = false -> Py.all p s = false.
Proof.
  intros Hs Hc. induction s as [|d s IH]; [discriminate|]. simpl in *.
  apply orb_true_iff in Hs as [Hd|Hs].
  - apply char_eqb_eq in Hd. subst d. rewrite Hc. reflexivity.
  - rewrite (IH Hs). apply andb_false_r.
Qed.

Lemma contains_lstrip (c : ascii) (s : string) :
  Py.char_eqb c "-"%char = false ->
  Py.contains c s = true -> Py.contains c (Py.lstrip "-"%char s) = true.
Proof.
  intros Hc. induction s as [|d s IH]; [discriminate|]. simpl.
  destruct (Py.char_eqb d "-"%char) eqn:Ed; [|auto].
  apply char_eqb_eq in Ed. subst d.
  unfold Py.char_eqb in *. rewrite Ascii.eqb_sym, Hc. simpl. exact IH.
Qed.

Lemma contains_remove (c d : ascii) (s : string) :
  Py.char_eqb c d = false ->
  Py.contains c s = true -> Py.contains c (Py.remove d s) = true.
Proof.
  intros Hcd. induction s as [|e s IH]; [discriminate|]. simpl.
  destruct (Py.char_eqb e d) eqn:Ee.
  - apply char_eqb_eq in Ee. subst e.
    unfold Py.char_eqb in *. rewrite Ascii.eqb_sym, Hcd. simpl. exact IH.
  - simpl. intros [H|H]%orb_true_iff; [rewrite H; reflexivity|].
    rewrite (IH H). apply orb_true_r.
Qed.

(** A line [x = value] of two plain words takes the assignment branch,
    with the words [x] and [value]. *)
Lemma assignment_line_plain (c : Calculator) (x value : string) :
  plain x = true -> plain value = true ->
  process_line c (x +:+ " = " +:+ value) = assignment_effect c x value.
Proof.
  intros Hx Hv. unfold process_line.
  assert (Hblank : Py.contains " "%char (x +:+ " = " +:+ value) = true).
  { rewrite !contains_app. change (Py.contains " " " = ") with true.
    rewrite orb_true_l, orb_true_r. reflexivity. }
  assert (Hequals : Py.contains "="%char (x +:+ " = " +:+ value) = true).
  { rewrite !contains_app. change (Py.contains "=" " = ") with true.
    rewrite orb_true_l, orb_true_r. reflexivity. }
  assert (is_empty (x +:+ " = " +:+ value) = false) as ->.
  { destruct x; [discriminate|reflexivity]. }
  assert (is_number (x +:+ " = " +:+ value) = false) as ->.
  { unfold is_number, Py.isdigit.
    rewrite (all_contains Py.char_isdigit " "%char); [apply andb_false_r| |
      reflexivity].
    apply contains_lstrip; [reflexivity|exact Hblank]. }
  assert (is_variable (x +:+ " = " +:+ value) = false) as ->.
  { unfold is_variable, Py.isalpha.
    rewrite (all_contains Py.char_isalpha "="%char); [apply andb_false_r| |
      reflexivity].
    apply contains_remove; [reflexivity|exact Hequals]. }
  unfold is_assignment. rewrite Hequals.
  rewrite (split_assignment x value Hx Hv). reflexivity.
Qed.

End Assignment_lines.

(** The left side of an assignment is checked first: when it is not a
    name the line prints [Invalid identifier], whatever stands on the
    right; when it is a name and the right side is neither a number nor a
    name the line prints [Invalid assignment].  The state is kept. *)
Theorem assignment_errors (c : Calculator) (x value : string) :
  plain x = true -> plain value = true ->
  (Py.isalpha x = false ->
   process_line c (x +:+ " = " +:+ value) = Ok (c, ["Invalid identifier"]))
  /\ (Py.isalpha x = true -> is_number value = false ->
      Py.isalpha value = false ->
      process_line c (x +:+ " = " +:+ value) = Ok (c, ["Invalid assignment"])).
Proof.
  intros Hx Hv. rewrite (assignment_line_plain c x value Hx Hv).
  unfold assignment_effect, assign_valid. split.
  - intros ->. reflexivity.
  - intros -> -> ->. reflexivity.
Qed.

Lemma assignment_errors_witness :
  (plain "a1" = true /\ plain "y" = true /\ Py.isalpha "a1" = false)
  /\ process_line init "a1 = y" = Ok (init, ["Invalid identifier"]).
Proof.
  split; [repeat split|].
  apply (assignment_errors init "a1" "y"); reflexivity.
Defined.
